(** * Report callbacks of the TradingAgents web UI

    A shallow embedding of [webui/callbacks/report_callbacks.py]: the
    callbacks that page through the analysed symbols, fill the report
    tabs, compose the decision summary and route the navigation links.

    Python values are modelled as follows.
    - [str] is [string]: the UTF-8 encoding of the text, byte by byte
      (so are the non-ASCII characters of the source's literals, and
      the Unicode white space that [str.strip] removes).
    - A value that may be [None] is an [option]; truthiness of such a
      value is [truthy].
    - A [dict] with string keys is a [gmap string _]; the ordered
      [symbol_states] dictionary, whose key order the callbacks depend
      on, is an association list.
    - A callback that can raise returns a [result]. *)

From Stdlib Require Import ZArith Lia String Ascii List DecimalString.
From stdpp Require Import gmap strings list fin_maps.

Local Open Scope Z_scope.

(** ** Exceptions *)

Inductive exn := IndexError | KeyError | ValueError.

Inductive result (A : Type) :=
| Ok (a : A)
| Raise (e : exn).
Arguments Ok {A} a.
Arguments Raise {A} e.

#[export] Instance result_ret : MRet result := fun A a => Ok a.

#[export] Instance result_bind : MBind result := fun A B k r =>
  match r with
  | Ok a => k a
  | Raise e => Raise e
  end.

(** ** The fragment of Python the callbacks use *)

Module Py.

Definition LF : string := String "010"%char EmptyString.

(** Truthiness of a string: [bool(s)]. *)
Definition nonempty (s : string) : bool :=
  match s with
  | EmptyString => false
  | String _ _ => true
  end.

(** Truthiness of a value that is [None] or a string. *)
Definition truthy (o : option string) : bool :=
  match o with
  | Some s => nonempty s
  | None => false
  end.

(** The string held by a value already known to be truthy. *)
Definition text (o : option string) : string := default EmptyString o.

(** [a or b] on such values. *)
Definition or_else (a b : option string) : option string :=
  if truthy a then a else b.

(** [v == lit] for a value that is [None] or a string. *)
Definition eq_str (v : option string) (lit : string) : bool :=
  match v with
  | Some s => String.eqb s lit
  | None => false
  end.

(** The string an [or]-chain ending in a literal evaluates to. *)
Definition or_default (a : option string) (d : string) : string :=
  match a with
  | Some s => if nonempty s then s else d
  | None => d
  end.

(** [l[i]] for a list and an integer: a negative index counts from
    the end, an index outside [-len(l) .. len(l)-1] raises. *)
Definition getitem {A : Type} (l : list A) (i : Z) : result A :=
  let n := Z.of_nat (length l) in
  let j := if i <? 0 then i + n else i in
  if (j <? 0) || (n <=? j) then Raise IndexError
  else match l !! Z.to_nat j with
       | Some x => Ok x
       | None => Raise IndexError
       end.

(** [d[k]] for a dictionary. *)
Definition subscript {V : Type} (d : gmap string V) (k : string) : result V :=
  match d !! k with
  | Some v => Ok v
  | None => Raise KeyError
  end.

(** [d.get(k, dflt)]. *)
Definition get_default {V : Type} (d : gmap string V) (k : string) (dflt : V) : V :=
  match d !! k with
  | Some v => v
  | None => dflt
  end.

(** [s.split(c)] for a one-character separator: the pieces between
    the occurrences of [c]; never the empty list. *)
Fixpoint split (c : ascii) (s : string) : list string :=
  match s with
  | EmptyString => [EmptyString]
  | String a s' =>
      if Ascii.eqb a c then EmptyString :: split c s'
      else match split c s' with
           | piece :: rest => String a piece :: rest
           | [] => [String a EmptyString]
           end
  end.

(** [s.replace(a, b)] for single characters. *)
Fixpoint replace (a b : ascii) (s : string) : string :=
  match s with
  | EmptyString => EmptyString
  | String c s' => String (if Ascii.eqb c a then b else c) (replace a b s')
  end.

Definition is_upper (c : ascii) : bool :=
  let n := nat_of_ascii c in ((65 <=? n) && (n <=? 90))%nat.
Definition is_lower (c : ascii) : bool :=
  let n := nat_of_ascii c in ((97 <=? n) && (n <=? 122))%nat.
Definition upper (c : ascii) : ascii :=
  if is_lower c then ascii_of_nat (nat_of_ascii c - 32) else c.
Definition lower (c : ascii) : ascii :=
  if is_upper c then ascii_of_nat (nat_of_ascii c + 32) else c.

(** [s.title()] on ASCII text: a letter that follows a letter is
    lowered, any other letter is raised. *)
Fixpoint title_from (prev_cased : bool) (s : string) : string :=
  match s with
  | EmptyString => EmptyString
  | String c s' =>
      let cased := is_upper c || is_lower c in
      String (if prev_cased then lower c else upper c) (title_from cased s')
  end.
Definition title (s : string) : string := title_from false s.

(** The white space [str.strip] removes, by encoding length. One
    byte: U+0009 to U+000D, U+001C to U+001F and the space. *)
Definition isspace (c : ascii) : bool :=
  let n := nat_of_ascii c in
  ((n =? 32) || ((9 <=? n) && (n <=? 13)) || ((28 <=? n) && (n <=? 31)))%nat.

(** Two bytes: U+0085 (C2 85) and U+00A0 (C2 A0). *)
Definition isspace2 (a b : ascii) : bool :=
  let a := nat_of_ascii a in
  let b := nat_of_ascii b in
  ((a =? 194) && ((b =? 133) || (b =? 160)))%nat.

(** Three bytes: U+1680 (E1 9A 80), U+2000 to U+200A (E2 80 80 to
    E2 80 8A), U+2028, U+2029, U+202F (E2 80 A8, A9, AF), U+205F
    (E2 81 9F) and U+3000 (E3 80 80). *)
Definition isspace3 (a b c : ascii) : bool :=
  let a := nat_of_ascii a in
  let b := nat_of_ascii b in
  let c := nat_of_ascii c in
  (((a =? 225) && (b =? 154) && (c =? 128)) ||
   ((a =? 226) && (b =? 128) &&
    (((128 <=? c) && (c <=? 138)) || (c =? 168) || (c =? 169) || (c =? 175))) ||
   ((a =? 226) && (b =? 129) && (c =? 159)) ||
   ((a =? 227) && (b =? 128) && (c =? 128)))%nat.

(** [s.strip() == ""]: [s] is made of white space characters only. *)
Fixpoint is_blank (s : string) : bool :=
  match s with
  | EmptyString => true
  | String a s1 =>
      if isspace a then is_blank s1
      else
        match s1 with
        | EmptyString => false
        | String b s2 =>
            if isspace2 a b then is_blank s2
            else
              match s2 with
              | EmptyString => false
              | String c s3 => isspace3 a b c && is_blank s3
              end
        end
  end.

(** [sub in s]. *)
Fixpoint contains (sub s : string) : bool :=
  String.prefix sub s ||
  match s with
  | EmptyString => false
  | String _ s' => contains sub s'
  end.

(** [sep.join(l)]. *)
Definition join (sep : string) (l : list string) : string :=
  String.concat sep l.

(** [str(n)] for a length. *)
Definition str_of_nat (n : nat) : string :=
  NilZero.string_of_uint (Nat.to_uint n).

(** [l.index(x)]: the first position of [x]; raises [ValueError] when
    [x] is not in [l]. *)
Fixpoint index (x : string) (l : list string) : result nat :=
  match l with
  | [] => Raise ValueError
  | y :: rest =>
      if String.eqb y x then Ok 0%nat
      else i ← index x rest; Ok (S i)
  end.

End Py.

(** ** Dash components and the shared application state *)

(** The component trees the callbacks return. Properties that are the
    same constant at every call site (the style dictionaries, [size],
    [mathjax], the class of the markdown and iframe elements) are left
    out; [Button] keeps the [index] of its pattern-matching id. *)
#[warnings="-register-all"]
Inductive Component :=
| Markdown (children : string)
| Iframe (srcDoc : string)
| Button (children : string) (index : nat) (color className : string)
| ButtonGroup (children : list Component) (className : string)
| Div (children : list Component) (className : string)
| Icon (className : string)
| Text (children : string).

(** A callback output: a new value or [dash.no_update]. *)
Inductive Update (A : Type) :=
| no_update
| Set_to (a : A).
Arguments no_update {A}.
Arguments Set_to {A} a.

(** The per-symbol state dictionary as the data model has it: the keys
    the callbacks subscript ([current_reports], [agent_statuses],
    [analysis_results], [ticker_symbol]) are present, a key read with
    [.get] may be absent ([None]), and [risk_debate_state], when
    present, is a dictionary. A state that lacks a subscripted key, or
    holds [None] for [risk_debate_state], makes the callbacks raise;
    such states are outside this record, so nothing here says that a
    callback reading the state never raises on them. *)
Record SymbolState := {
  current_reports : gmap string string;
  agent_statuses : gmap string string;
  analysis_complete : option bool;
  analysis_results : option (gmap string string);
  recommended_action : option string;
  risk_debate_state : option (gmap string string);
  ticker_symbol : string
}.

(** [app_state]: the insertion-ordered [symbol_states] dictionary and
    the [current_symbol] pointer. *)
Record AppState := {
  symbol_states : list (string * SymbolState);
  current_symbol : option string
}.

(** [list(app_state.symbol_states.keys())]. *)
Definition keys (app : AppState) : list string := (symbol_states app).*1.

(** [bool(app_state.symbol_states)]. *)
Definition has_symbols (app : AppState) : bool :=
  match symbol_states app with
  | [] => false
  | _ :: _ => true
  end.

(** [len(l)] as a Python integer. *)
Definition len {A : Type} (l : list A) : Z := Z.of_nat (length l).

Definition create_symbol_button (symbol : string) (index : nat) (is_active : bool)
  : Component :=
  Button symbol index
    (if is_active then "primary" else "outline-primary")
    ("symbol-btn " +:+ (if is_active then "active" else "")).

Definition create_markdown_content (content default_message : string) : Component :=
  Markdown (if negb (Py.nonempty content) || Py.is_blank content
            then default_message else content).

(** The default of [create_markdown_content]'s second argument. *)
Definition default_message : string := "No content available yet.".

(** ** The callbacks *)

Section Callbacks.

(** Collaborators defined outside the module: [app_state.get_state],
    the two debate renderers of [webui.components.ui], the report
    validator of [webui.utils.report_validator] (a dictionary of one
    slot in, a dictionary out), and [json.loads(s)["index"]] on the
    identifier part of a triggering property. *)
Variable get_state : AppState -> string -> option SymbolState.
Variable render_researcher_debate render_risk_debate : string -> string.
Variable validate_reports_for_ui : gmap string string -> gmap string string.
Variable json_index : string -> result Z.

(** *** Symbol buttons *)

(** [enumerate(symbols)]. *)
Definition enumerate (symbols : list string) : list (nat * string) :=
  zip (seq 0 (length symbols)) symbols.

(** The loop that appends one button per symbol, the one at
    [active_index] marked active. *)
Definition symbol_buttons (symbols : list string) (active_index : Z) : list Component :=
  foldl (fun buttons '(i, symbol) =>
           let is_active := Z.of_nat i =? active_index in
           buttons ++ [create_symbol_button symbol i is_active])
        [] (enumerate symbols).

Definition nav_info (symbols : list string) : Component :=
  Div [Icon "fas fa-info-circle me-2";
       Text ("Showing " +:+ Py.str_of_nat (length symbols) +:+ " symbols")]
      "text-muted small text-center mt-2".

Definition button_container (symbols : list string) (buttons : list Component)
  : Component :=
  if 1 <? len symbols then
    Div [ButtonGroup buttons "d-flex flex-wrap justify-content-center";
         nav_info symbols]
        "symbol-pagination-wrapper"
  else ButtonGroup buttons "d-flex justify-content-center".

(** [any(symbol_clicks)]: some click count is neither [None] nor 0. *)
Definition any_clicks (symbol_clicks : list (option Z)) : bool :=
  existsb (fun c => match c with
                    | Some n => negb (n =? 0)
                    | None => false
                    end) symbol_clicks.

(** [triggered] lists the [prop_id]s of [ctx.triggered]; the falsy
    value Dash gives when nothing triggered is the empty list. The
    result carries the application state after the call. *)
Definition handle_report_symbol_click
    (app : AppState) (symbol_clicks : list (option Z)) (triggered : list string)
  : result (AppState * (Update Z * Update Z * Update Component)) :=
  let unchanged := (app, (no_update, no_update, no_update)) in
  if negb (any_clicks symbol_clicks) || negb (bool_decide (triggered ≠ [])) then
    Ok unchanged
  else
    button_id ← Py.getitem triggered 0;
    if Py.contains "symbol-btn" button_id then
      id_part ← Py.getitem (Py.split "." button_id) 0;
      clicked_index ← json_index id_part;
      let symbols := keys app in
      if (0 <=? clicked_index) && (clicked_index <? len symbols) then
        symbol ← Py.getitem symbols clicked_index;
        let app' := {| symbol_states := symbol_states app;
                       current_symbol := Some symbol |} in
        let page_number := clicked_index + 1 in
        let buttons := symbol_buttons symbols clicked_index in
        Ok (app', (Set_to page_number, Set_to page_number,
                   Set_to (button_container symbols buttons)))
      else Ok unchanged
    else Ok unchanged.

(** *** Debate tabs *)

Definition out_of_range : string :=
  "Page index out of range. Please refresh or restart analysis.".

(** The part of [update_researcher_debate] after the symbol is chosen. *)
Definition researcher_debate_view (symbol : string) : Component :=
  Iframe (render_researcher_debate symbol).

Definition update_researcher_debate (app : AppState) (active_page : option Z)
  : result Component :=
  let early := create_markdown_content "" "No researcher debate available yet." in
  match active_page with
  | None => Ok early
  | Some p =>
      if negb (has_symbols app) || (p =? 0) then Ok early
      else
        let symbols_list := keys app in
        if len symbols_list <? p then Ok (create_markdown_content "" out_of_range)
        else
          symbol ← Py.getitem symbols_list (p - 1);
          Ok (researcher_debate_view symbol)
  end.

(** The part of [update_risk_debate] after the symbol is chosen. *)
Definition risk_debate_view (symbol : string) : Component :=
  Iframe (render_risk_debate symbol).

Definition update_risk_debate (app : AppState) (active_page : option Z)
  : result Component :=
  let early := create_markdown_content "" "No risk debate available yet." in
  match active_page with
  | None => Ok early
  | Some p =>
      if negb (has_symbols app) || (p =? 0) then Ok early
      else
        let symbols_list := keys app in
        if len symbols_list <? p then Ok (create_markdown_content "" out_of_range)
        else
          symbol ← Py.getitem symbols_list (p - 1);
          Ok (risk_debate_view symbol)
  end.

(** *** Report tabs *)

(** [report_type.replace('_', ' ').title()]. *)
Definition slot_title (report_type : string) : string :=
  Py.title (Py.replace "_" " " report_type).

(** One round of the loop over [analyst_reports.items()]: the text
    stored in [validated_reports[report_type]]. *)
Definition validated_entry (report_type : string) (status content : option string)
  : result string :=
  if Py.eq_str status "completed" && Py.truthy content then
    Ok (Py.text content)
  else if Py.eq_str status "in_progress" then
    Ok ("🔄 " +:+ slot_title report_type +:+ " - Analysis in progress...")
  else if Py.eq_str status "pending" then
    Ok ("⏳ " +:+ slot_title report_type +:+ " - Waiting to start...")
  else if Py.truthy content then
    let content_validated := validate_reports_for_ui {[report_type := Py.text content]} in
    Py.subscript content_validated report_type
  else
    Ok ("No " +:+ slot_title report_type +:+ " available yet.").

(** The loop itself: [analyst_reports] in the order of its literal,
    [analyst_status_map] read with [.get]. *)
Fixpoint validate_loop (items : list (string * option string))
    (analyst_status_map : gmap string (option string))
    (validated_reports : gmap string string) : result (gmap string string) :=
  match items with
  | [] => Ok validated_reports
  | (report_type, content) :: rest =>
      let status := Py.get_default analyst_status_map report_type None in
      text ← validated_entry report_type status content;
      validate_loop rest analyst_status_map (<[report_type := text]> validated_reports)
  end.

(** The part of [update_tabs_content] after the state is fetched. *)
Definition tabs_of_state (state : SymbolState) : result (list Component) :=
  let reports := current_reports state in
  let agent_statuses := agent_statuses state in
  let analyst_reports :=
    [("market_report", reports !! "market_report");
     ("sentiment_report", reports !! "sentiment_report");
     ("news_report", reports !! "news_report");
     ("fundamentals_report", reports !! "fundamentals_report");
     ("macro_report", reports !! "macro_report")] in
  let analyst_status_map : gmap string (option string) :=
    list_to_map
      [("market_report", agent_statuses !! "Market Analyst");
       ("sentiment_report", agent_statuses !! "Social Analyst");
       ("news_report", agent_statuses !! "News Analyst");
       ("fundamentals_report", agent_statuses !! "Fundamentals Analyst");
       ("macro_report", agent_statuses !! "Macro Analyst")] in
  validated_reports ← validate_loop analyst_reports analyst_status_map ∅;
  let market_report :=
    Py.get_default validated_reports "market_report" "No market analysis available yet." in
  let sentiment_report :=
    Py.get_default validated_reports "sentiment_report" "No sentiment analysis available yet." in
  let news_report :=
    Py.get_default validated_reports "news_report" "No news analysis available yet." in
  let fundamentals_report :=
    Py.get_default validated_reports "fundamentals_report"
      "No fundamentals analysis available yet." in
  let macro_report :=
    Py.get_default validated_reports "macro_report" "No macro analysis available yet." in
  let research_manager_report :=
    Py.or_default (reports !! "research_manager_report")
      "No research manager decision available yet." in
  let trader_report :=
    Py.or_default (reports !! "trader_investment_plan") "No trader report available yet." in
  let portfolio_report :=
    Py.or_default (reports !! "final_trade_decision") "No final decision available yet." in
  Ok [create_markdown_content market_report default_message;
      create_markdown_content sentiment_report default_message;
      create_markdown_content news_report default_message;
      create_markdown_content fundamentals_report default_message;
      create_markdown_content macro_report default_message;
      create_markdown_content research_manager_report default_message;
      create_markdown_content trader_report default_message;
      create_markdown_content portfolio_report default_message].

(** The part of [update_tabs_content] after the symbol is chosen. *)
Definition tabs_of_symbol (app : AppState) (symbol : string) : result (list Component) :=
  match get_state app symbol with
  | None => Ok (replicate 8 (create_markdown_content "" "No data for this symbol."))
  | Some state => tabs_of_state state
  end.

Definition update_tabs_content (app : AppState) (active_page : option Z)
  : result (list Component) :=
  let early := replicate 8 (create_markdown_content "" "No analysis available yet.") in
  match active_page with
  | None => Ok early
  | Some p =>
      if negb (has_symbols app) || (p =? 0) then Ok early
      else
        let symbols_list := keys app in
        if len symbols_list <? p then
          Ok (replicate 8 (create_markdown_content "" out_of_range))
        else
          symbol ← Py.getitem symbols_list (p - 1);
          tabs_of_symbol app symbol
  end.

(** *** Decision summary *)

(** Truthiness of [state.get("analysis_complete")]. *)
Definition flag_set (flag : option bool) : bool := default false flag.

(** Truthiness of [state["analysis_results"]]: a non-empty dictionary. *)
Definition has_results (results : option (gmap string string)) : bool :=
  match results with
  | Some d => negb (bool_decide (d = ∅))
  | None => false
  end.

(** [state.get("risk_debate_state", {}).get("history")]. *)
Definition risk_history (state : SymbolState) : option string :=
  default ∅ (risk_debate_state state) !! "history".

(** The list [available_reports] after its nine tests. *)
Definition available_reports (state : SymbolState) : list string :=
  let reports := current_reports state in
  let final_report_content := reports !! "final_trade_decision" in
  (if Py.truthy (reports !! "market_report") then ["Market Analysis"] else []) ++
  (if Py.truthy (reports !! "sentiment_report") then ["Social Media Sentiment"] else []) ++
  (if Py.truthy (reports !! "news_report") then ["News Analysis"] else []) ++
  (if Py.truthy (reports !! "fundamentals_report") then ["Fundamentals Analysis"] else []) ++
  (if Py.truthy (reports !! "macro_report") then ["Macro Analysis"] else []) ++
  (if Py.truthy (reports !! "research_manager_report")
   then ["Research Manager Decision"] else []) ++
  (if Py.truthy (reports !! "trader_investment_plan")
   then ["Trader Investment Plan"] else []) ++
  (if Py.truthy (risk_history state) then ["Risk Debate"] else []) ++
  (if bool_decide (final_report_content ≠ None)
   then ["Portfolio Manager Final Decision"] else []).

(** [risk_debate_latest]: the last line of the history, or [""]. *)
Definition risk_debate_latest (state : SymbolState) : result string :=
  if Py.truthy (risk_history state) then
    let risk_history := Py.text (risk_history state) in
    if Py.nonempty risk_history then Py.getitem (Py.split "010" risk_history) (-1)
    else Ok ""
  else Ok "".

(** The [or]-chain assigned to [current_decision]. *)
Definition current_decision (state : SymbolState) (latest : string) : option string :=
  let reports := current_reports state in
  Py.or_else
    (Py.or_else
       (Py.or_else (reports !! "final_trade_decision") (Some latest))
       (reports !! "trader_investment_plan"))
    (reports !! "research_manager_report").

(** The [if] branch: the analysis is confirmed complete. *)
Definition final_decision_text (state : SymbolState) (final_report_content : string)
  : string :=
  if has_results (analysis_results state) then
    let results := default ∅ (analysis_results state) in
    "## Final Decision for " +:+ ticker_symbol state +:+ Py.LF +:+ Py.LF +:+
    "**Trade Action:** " +:+ Py.get_default results "decision" "No decision" +:+
    Py.LF +:+ Py.LF +:+
    "**Date:** " +:+ Py.get_default results "date" "N/A"
  else
    "## Final Decision for " +:+ ticker_symbol state +:+ Py.LF +:+ Py.LF +:+
    (if Py.truthy (recommended_action state) then
       "**📈 RECOMMENDED ACTION: " +:+ Py.text (recommended_action state) +:+ "**" +:+
       Py.LF +:+ Py.LF
     else "") +:+
    "**Full Analysis:**" +:+ Py.LF +:+
    final_report_content.

(** The [else] branch: the partial summary. *)
Definition partial_summary_text (state : SymbolState) : result string :=
  let available_reports := available_reports state in
  if bool_decide (available_reports ≠ []) then
    latest ← risk_debate_latest state;
    let current_decision := current_decision state latest in
    Ok ("## Partial Analysis for " +:+ ticker_symbol state +:+ Py.LF +:+ Py.LF +:+
        "**Completed Reports:** " +:+ Py.join ", " available_reports +:+
        Py.LF +:+ Py.LF +:+
        (if Py.truthy current_decision then
           "**Current Decision:** Based on completed analysis" +:+ Py.LF +:+ Py.LF +:+
           Py.text current_decision
         else ""))
  else Ok "Analysis not complete yet.".

(** The part of [update_decision_summary] after the state is fetched. *)
Definition decision_of_state (state : SymbolState) : result string :=
  let reports := current_reports state in
  let final_report_content := reports !! "final_trade_decision" in
  if flag_set (analysis_complete state) && bool_decide (final_report_content ≠ None) then
    Ok (final_decision_text state (Py.text final_report_content))
  else partial_summary_text state.

(** The part of [update_decision_summary] after the symbol is chosen. *)
Definition decision_of_symbol (app : AppState) (symbol : string) : result string :=
  match get_state app symbol with
  | None => Ok "No data for this symbol."
  | Some state => decision_of_state state
  end.

Definition update_decision_summary (app : AppState) (active_page : option Z)
  : result string :=
  let early := "Analysis not complete yet." in
  match active_page with
  | None => Ok early
  | Some p =>
      if negb (has_symbols app) || (p =? 0) then Ok early
      else
        let symbols_list := keys app in
        if len symbols_list <? p then Ok out_of_range
        else
          symbol ← Py.getitem symbols_list (p - 1);
          decision_of_symbol app symbol
  end.

(** *** Current-symbol label *)

(** The part of [update_report_display_text] after the symbol is chosen. *)
Definition display_text_of_symbol (symbol : string) : string := "📊 " +:+ symbol.

Definition update_report_display_text (app : AppState) (active_page : option Z)
  : result string :=
  match active_page with
  | None => Ok ""
  | Some p =>
      if negb (has_symbols app) || (p =? 0) then Ok ""
      else
        let symbols_list := keys app in
        if len symbols_list <? p then Ok "Invalid page"
        else
          symbol ← Py.getitem symbols_list (p - 1);
          Ok (display_text_of_symbol symbol)
  end.

(** *** Tab router *)

Definition tab_mapping : gmap string string :=
  list_to_map
    [("nav-market", "market-analysis");
     ("nav-social", "social-sentiment");
     ("nav-news", "news-analysis");
     ("nav-fundamentals", "fundamentals-analysis");
     ("nav-researcher", "researcher-debate");
     ("nav-research-mgr", "research-manager");
     ("nav-trader", "trader-plan");
     ("nav-risk-agg", "risk-debate");
     ("nav-risk-cons", "risk-debate");
     ("nav-risk-neut", "risk-debate");
     ("nav-final", "final-decision")].

(** [args] are the eleven click counts, which the body never reads;
    [triggered] is as in [handle_report_symbol_click]. *)
Definition switch_tab (args : list (option Z)) (triggered : list string) : result string :=
  if negb (bool_decide (triggered ≠ [])) then Ok "market-analysis"
  else
    prop_id ← Py.getitem triggered 0;
    trigger_id ← Py.getitem (Py.split "." prop_id) 0;
    Ok (Py.get_default tab_mapping trigger_id "market-analysis").

(** *** Vocabulary of the properties *)

(** The five analyst slots in tab order: the key of the report in
    [current_reports] and the analyst's name in [agent_statuses]. *)
Definition analyst_slots : list (string * string) :=
  [("market_report", "Market Analyst");
   ("sentiment_report", "Social Analyst");
   ("news_report", "News Analyst");
   ("fundamentals_report", "Fundamentals Analyst");
   ("macro_report", "Macro Analyst")].

(** The text the loop of [update_tabs_content] resolves for a slot. *)
Definition slot_text (state : SymbolState) (slot : string * string) : result string :=
  validated_entry slot.1 (agent_statuses state !! slot.2) (current_reports state !! slot.1).

(** The validator answers with an entry for the slot it was given. *)
Definition keeps_slot : Prop :=
  ∀ k v, is_Some (validate_reports_for_ui {[k := v]} !! k).

(** Page [p] is within the symbol list and the symbol it names has
    the state [state]. *)
Definition page_state (app : AppState) (p : Z) (state : SymbolState) : Prop :=
  1 <= p <= len (keys app) ∧
  ∃ symbol, keys app !! Z.to_nat (p - 1) = Some symbol ∧
            get_state app symbol = Some state.

(** All five page-consuming callbacks go on with [symbol]. *)
Definition all_continue_with (app : AppState) (p : Z) (symbol : string) : Prop :=
  update_tabs_content app (Some p) = tabs_of_symbol app symbol ∧
  update_decision_summary app (Some p) = decision_of_symbol app symbol ∧
  update_researcher_debate app (Some p) = Ok (researcher_debate_view symbol) ∧
  update_risk_debate app (Some p) = Ok (risk_debate_view symbol) ∧
  update_report_display_text app (Some p) = Ok (display_text_of_symbol symbol).

(** All five page-consuming callbacks raise [e]. *)
Definition all_raise (app : AppState) (p : Z) (e : exn) : Prop :=
  update_tabs_content app (Some p) = Raise e ∧
  update_decision_summary app (Some p) = Raise e ∧
  update_researcher_debate app (Some p) = Raise e ∧
  update_risk_debate app (Some p) = Raise e ∧
  update_report_display_text app (Some p) = Raise e.

(** The first candidate that is a non-empty text. *)
Fixpoint first_nonempty (candidates : list (option string)) : option string :=
  match candidates with
  | [] => None
  | candidate :: rest =>
      if Py.truthy candidate then candidate else first_nonempty rest
  end.

End Callbacks.

(** ** Sample states *)

Module Sample.

(** A collaborator set: state lookup in [symbol_states], the validator
    that returns its argument, renderers that return the symbol, and
    a decoder for the identifiers Dash serialises for the symbol
    buttons, which reads the integer of the [index] field. *)
Definition get_state (app : AppState) (symbol : string) : option SymbolState :=
  (list_to_map (symbol_states app) : gmap string SymbolState) !! symbol.
Definition validate (reports : gmap string string) : gmap string string := reports.
Definition render (symbol : string) : string := symbol.

(** A text between double quotes. *)
Definition quoted (s : string) : string :=
  String "034"%char s +:+ String "034"%char EmptyString.

(** The id of the symbol button [index] as Dash serialises it: JSON
    with sorted keys. *)
Definition button_id (index : nat) : string :=
  "{" +:+ quoted "component" +:+ ":" +:+ quoted "reports" +:+ "," +:+
  quoted "index" +:+ ":" +:+ Py.str_of_nat index +:+ "," +:+
  quoted "type" +:+ ":" +:+ quoted "symbol-btn" +:+ "}".

(** The [prop_id] of the click count of that button. *)
Definition button_prop_id (index : nat) : string := button_id index +:+ ".n_clicks".

(** [s] without the prefix [prefix], when it starts with it. *)
Fixpoint strip_prefix (prefix s : string) : option string :=
  match prefix, s with
  | EmptyString, _ => Some s
  | String a prefix', String b s' =>
      if Ascii.eqb a b then strip_prefix prefix' s' else None
  | String _ _, EmptyString => None
  end.

(** What follows the first occurrence of [key] in [s]. *)
Fixpoint find_after (key s : string) : option string :=
  match strip_prefix key s with
  | Some rest => Some rest
  | None =>
      match s with
      | EmptyString => None
      | String _ s' => find_after key s'
      end
  end.

(** The number written by the leading decimal digits of [s]. *)
Fixpoint read_digits (s : string) (read : option Z) : option Z :=
  match s with
  | EmptyString => read
  | String c s' =>
      let n := nat_of_ascii c in
      if ((48 <=? n) && (n <=? 57))%nat
      then read_digits s' (Some (10 * default 0 read + (Z.of_nat n - 48)))
      else read
  end.

Definition json_index (id_part : string) : result Z :=
  match find_after (quoted "index" +:+ ":") id_part with
  | None => Raise KeyError
  | Some (String "-" digits) =>
      match read_digits digits None with
      | Some n => Ok (- n)
      | None => Raise ValueError
      end
  | Some digits =>
      match read_digits digits None with
      | Some n => Ok n
      | None => Raise ValueError
      end
  end.

(** AAPL: market analyst done, news analyst at work, social analyst
    waiting, a macro report of an analyst without status, and a final
    report written before [analysis_complete] is set. *)
Definition aapl : SymbolState := {|
  current_reports :=
    {[ "market_report" := "Uptrend."; "macro_report" := "Rates steady.";
       "final_trade_decision" := "BUY" ]};
  agent_statuses :=
    {[ "Market Analyst" := "completed"; "News Analyst" := "in_progress";
       "Social Analyst" := "pending" ]};
  analysis_complete := Some false;
  analysis_results := None;
  recommended_action := None;
  risk_debate_state := Some {[ "history" := "Risky: buy" +:+ Py.LF +:+ "Safe: hold" ]};
  ticker_symbol := "AAPL"
|}.

(** MSFT: flagged complete with an empty final report and no
    structured results. *)
Definition msft : SymbolState := {|
  current_reports := {[ "final_trade_decision" := "" ]};
  agent_statuses := ∅;
  analysis_complete := Some true;
  analysis_results := None;
  recommended_action := None;
  risk_debate_state := None;
  ticker_symbol := "MSFT"
|}.

(** NVDA: not complete, an empty final report, a trader plan. *)
Definition nvda : SymbolState := {|
  current_reports :=
    {[ "final_trade_decision" := ""; "trader_investment_plan" := "Accumulate" ]};
  agent_statuses := ∅;
  analysis_complete := None;
  analysis_results := None;
  recommended_action := None;
  risk_debate_state := None;
  ticker_symbol := "NVDA"
|}.

Definition no_symbols : AppState :=
  {| symbol_states := []; current_symbol := None |}.
Definition one_symbol : AppState :=
  {| symbol_states := [("AAPL", aapl)]; current_symbol := None |}.
Definition three_symbols : AppState :=
  {| symbol_states := [("AAPL", aapl); ("MSFT", msft); ("NVDA", nvda)];
     current_symbol := Some "AAPL" |}.

End Sample.

(** ** The polling pagination callback *)

(** [update_report_symbol_pagination]; its two inputs, the store data
    and the interval count, are not read. [html.Div] with a text child
    is a [Div] around a [Text]. *)
Definition update_report_symbol_pagination (app : AppState) : result Component :=
  if negb (has_symbols app) then
    Ok (Div [Text "No symbols available"] "text-muted text-center")
  else
    let symbols := keys app in
    let current_symbol := current_symbol app in
    active_index ←
      (if Py.truthy current_symbol && bool_decide (Py.text current_symbol ∈ symbols)
       then i ← Py.index (Py.text current_symbol) symbols; Ok (Z.of_nat i)
       else Ok 0);
    let buttons := symbol_buttons symbols active_index in
    Ok (button_container symbols buttons).

(** *** Vocabulary of the further properties *)

(** A symbol button rendered as the active one. *)
Definition is_active_button (c : Component) : bool :=
  match c with
  | Button _ _ color _ => String.eqb color "primary"
  | _ => false
  end.

(** The symbol buttons inside a rendered pagination container. *)
Definition container_buttons (c : Component) : list Component :=
  match c with
  | ButtonGroup buttons _ => buttons
  | Div (ButtonGroup buttons _ :: _) _ => buttons
  | _ => []
  end.

(** The text of a markdown panel. *)
Definition markdown_text (c : Component) : option string :=
  match c with
  | Markdown text => Some text
  | _ => None
  end.

(** The tab identifiers the router can answer with. *)
Definition routed_tabs : list string :=
  ["market-analysis"; "social-sentiment"; "news-analysis"; "fundamentals-analysis";
   "researcher-debate"; "research-manager"; "trader-plan"; "risk-debate";
   "final-decision"].

(** ** Further sample states *)

Module Further.

(** A state store that has no state for any symbol. *)
Definition no_state (app : AppState) (symbol : string) : option SymbolState := None.

(** A validator that answers with the empty dictionary. *)
Definition forgetful (reports : gmap string string) : gmap string string := ∅.

(** TSLA: complete, with structured results and a recommended action. *)
Definition tsla : SymbolState := {|
  current_reports := {[ "final_trade_decision" := "Long thesis." ]};
  agent_statuses := ∅;
  analysis_complete := Some true;
  analysis_results := Some {[ "decision" := "BUY"; "date" := "2024-01-01" ]};
  recommended_action := Some "BUY";
  risk_debate_state := None;
  ticker_symbol := "TSLA"
|}.

(** AMZN: registered, nothing produced yet. *)
Definition amzn : SymbolState := {|
  current_reports := ∅;
  agent_statuses := ∅;
  analysis_complete := None;
  analysis_results := None;
  recommended_action := None;
  risk_debate_state := None;
  ticker_symbol := "AMZN"
|}.

Definition two_symbols : AppState :=
  {| symbol_states := [("TSLA", tsla); ("AMZN", amzn)]; current_symbol := None |}.

(** SPCE: the market analyst is done and its report is one space. *)
Definition spce : SymbolState := {|
  current_reports := {[ "market_report" := " " ]};
  agent_statuses := {[ "Market Analyst" := "completed" ]};
  analysis_complete := None;
  analysis_results := None;
  recommended_action := None;
  risk_debate_state := None;
  ticker_symbol := "SPCE"
|}.

(** GOOG: no final report yet; a risk debate of two lines and a
    trader plan. *)
Definition goog : SymbolState := {|
  current_reports := {[ "trader_investment_plan" := "Accumulate" ]};
  agent_statuses := ∅;
  analysis_complete := Some false;
  analysis_results := None;
  recommended_action := None;
  risk_debate_state := Some {[ "history" := "Risky: buy" +:+ Py.LF +:+ "Safe: hold" ]};
  ticker_symbol := "GOOG"
|}.

Definition blank_and_debate : AppState :=
  {| symbol_states := [("SPCE", spce); ("GOOG", goog)]; current_symbol := None |}.

(** The click on the second of three buttons. *)
Definition second_click : list (option Z) := [None; Some 1; None].
Definition second_trigger : list string := [Sample.button_prop_id 1].

(** The state after that click. *)
Definition after_click : AppState :=
  {| symbol_states := symbol_states Sample.three_symbols;
     current_symbol := Some "MSFT" |}.

End Further.

(** * Properties *)

(** ** Python indexing and splitting *)

Section PythonFacts.

Context {A : Type}.
Implicit Types (l : list A) (i : Z).

(** An index within [0 .. len-1] reads that position. *)
Lemma getitem_nonneg l i :
  0 <= i < len l → ∃ x, l !! Z.to_nat i = Some x ∧ Py.getitem l i = Ok x.
Proof.
  unfold len. intros Hi.
  destruct (lookup_lt_is_Some_2 l (Z.to_nat i)) as [x Hx]; [lia|].
  exists x. split; [done|].
  unfold Py.getitem.
  destruct (Z.ltb_spec i 0); [lia|].
  destruct (Z.ltb_spec i 0); [lia|].
  destruct (Z.leb_spec (Z.of_nat (length l)) i); [lia|].
  simpl. by rewrite Hx.
Qed.

(** A negative index no smaller than [-len] reads from the end. *)
Lemma getitem_negative l i :
  i < 0 → 0 <= len l + i →
  ∃ x, l !! Z.to_nat (len l + i) = Some x ∧ Py.getitem l i = Ok x.
Proof.
  unfold len. intros Hneg Hi.
  destruct (lookup_lt_is_Some_2 l (Z.to_nat (Z.of_nat (length l) + i))) as [x Hx]; [lia|].
  exists x. split; [done|].
  unfold Py.getitem.
  destruct (Z.ltb_spec i 0); [|lia].
  destruct (Z.ltb_spec (i + Z.of_nat (length l)) 0); [lia|].
  destruct (Z.leb_spec (Z.of_nat (length l)) (i + Z.of_nat (length l))); [lia|].
  simpl. by rewrite Z.add_comm, Hx.
Qed.

(** An index below [-len] raises. *)
Lemma getitem_below l i : i < - len l → Py.getitem l i = Raise IndexError.
Proof.
  unfold len, Py.getitem. intros Hi.
  destruct (Z.ltb_spec i 0); [|lia].
  by destruct (Z.ltb_spec (i + Z.of_nat (length l)) 0); [|lia].
Qed.

(** The first element, when there is one. *)
Lemma getitem_head (x : A) l : Py.getitem (x :: l) 0 = Ok x.
Proof.
  unfold Py.getitem. simpl Z.ltb. cbv iota.
  destruct (Z.leb_spec (Z.of_nat (length (x :: l))) 0) as [H|H]; [|done].
  rewrite length_cons in H. lia.
Qed.

(** The last element of a non-empty list is what index [-1] reads. *)
Lemma getitem_last l (x : A) : Py.getitem (l ++ [x]) (-1) = Ok x.
Proof.
  destruct (getitem_negative (l ++ [x]) (-1)) as (y & Hy & ->); [lia| |].
  - unfold len. rewrite length_app. simpl. lia.
  - f_equal. revert Hy. unfold len. rewrite length_app. simpl.
    replace (Z.to_nat (Z.of_nat (length l + 1) + -1)) with (length l) by lia.
    rewrite lookup_app_r, Nat.sub_diag by lia. simpl. congruence.
Qed.

End PythonFacts.

(** [split] always yields at least one piece. *)
Lemma split_pieces c s : ∃ pieces latest, Py.split c s = pieces ++ [latest].
Proof.
  induction s as [|a s (pieces & latest & IH)]; simpl.
  - by exists [], EmptyString.
  - destruct (Ascii.eqb a c).
    + exists (EmptyString :: pieces), latest. by rewrite IH.
    + rewrite IH. destruct pieces as [|piece pieces]; simpl.
      * by exists [], (String a latest).
      * by exists (String a piece :: pieces), latest.
Qed.


(** ** Resolving a page to a symbol *)

Section Pages.

Variable get_state : AppState -> string -> option SymbolState.
Variable render_researcher_debate render_risk_debate : string -> string.
Variable validate_reports_for_ui : gmap string string -> gmap string string.

Local Abbreviation continue_with :=
  (all_continue_with get_state render_researcher_debate render_risk_debate
     validate_reports_for_ui).
Local Abbreviation raise_all :=
  (all_raise get_state render_researcher_debate render_risk_debate
     validate_reports_for_ui).

Lemma has_symbols_keys app : has_symbols app = true ↔ keys app ≠ [].
Proof. unfold has_symbols, keys. by destruct (symbol_states app). Qed.

Lemma has_symbols_len app : has_symbols app = true ↔ 0 < len (keys app).
Proof.
  unfold has_symbols, keys, len. destruct (symbol_states app); simpl; [|lia].
  split; [done|lia].
Qed.

(** Once both guards are passed, every callback indexes the symbol
    list at [p - 1] and goes on with what it reads. *)
Lemma guards_passed app p symbol :
  has_symbols app = true → p ≠ 0 → p <= len (keys app) →
  Py.getitem (keys app) (p - 1) = Ok symbol →
  continue_with app p symbol.
Proof.
  intros Hs Hp Hle Hget.
  unfold all_continue_with, update_tabs_content, update_decision_summary,
    update_researcher_debate, update_risk_debate, update_report_display_text.
  rewrite Hs, (proj2 (Z.eqb_neq p 0) Hp), (proj2 (Z.ltb_ge _ _) Hle), Hget.
  by repeat split.
Qed.

Lemma guards_passed_raise app p e :
  has_symbols app = true → p ≠ 0 → p <= len (keys app) →
  Py.getitem (keys app) (p - 1) = Raise e →
  raise_all app p e.
Proof.
  intros Hs Hp Hle Hget.
  unfold all_raise, update_tabs_content, update_decision_summary,
    update_researcher_debate, update_risk_debate, update_report_display_text.
  rewrite Hs, (proj2 (Z.eqb_neq p 0) Hp), (proj2 (Z.ltb_ge _ _) Hle), Hget.
  by repeat split.
Qed.

Lemma in_range_page app p :
  1 <= p <= len (keys app) →
  ∃ symbol, keys app !! Z.to_nat (p - 1) = Some symbol ∧ continue_with app p symbol.
Proof.
  intros Hp.
  destruct (getitem_nonneg (keys app) (p - 1)) as (symbol & Hl & Hg); [lia|].
  exists symbol. split; [done|].
  apply guards_passed; [apply has_symbols_len|..]; (lia || done).
Qed.

(** C5. For a non-empty symbol list and a page [p] with
    [1 <= p <= len(symbols)], each of the five page-consuming
    callbacks (tab content, decision summary, researcher debate, risk
    debate, current-symbol label) goes on with the symbol
    [symbols[p-1]]: the 1-based page is the 0-based list index plus
    one. *)
Theorem page_resolves_to_symbol app p :
  keys app ≠ [] → 1 <= p <= len (keys app) →
  ∃ symbol, keys app !! Z.to_nat (p - 1) = Some symbol ∧ continue_with app p symbol.
Proof. intros _. apply in_range_page. Qed.

(** C9. For a negative page [p] and a non-empty symbol list both
    guards ([not active_page] and [active_page > len(symbols_list)])
    are passed, so no out-of-range message is produced; the
    expression [symbols_list[p-1]] then reads, by negative indexing,
    the symbol at position [len(symbols)+p-1] when that position is
    not negative, and raises [IndexError] when [p-1 < -len(symbols)].
    All five callbacks behave so. *)
Theorem negative_page_wraps app p :
  keys app ≠ [] → p < 0 →
  (negb (has_symbols app) || (p =? 0) = false ∧ (len (keys app) <? p) = false) ∧
  (0 <= len (keys app) + p - 1 →
   ∃ symbol, keys app !! Z.to_nat (len (keys app) + p - 1) = Some symbol ∧
             Py.getitem (keys app) (p - 1) = Ok symbol ∧
             continue_with app p symbol) ∧
  (p - 1 < - len (keys app) →
   Py.getitem (keys app) (p - 1) = Raise IndexError ∧ raise_all app p IndexError).
Proof.
  intros Hne Hp.
  apply has_symbols_keys in Hne.
  assert (0 <= len (keys app)) by (unfold len; lia).
  split; [|split].
  - rewrite Hne. simpl. split; [apply Z.eqb_neq|apply Z.ltb_ge]; lia.
  - intros Hin.
    destruct (getitem_negative (keys app) (p - 1)) as (symbol & Hl & Hg); [lia..|].
    exists symbol. replace (len (keys app) + p - 1) with (len (keys app) + (p - 1)) by lia.
    split; [done|]. split; [done|]. apply guards_passed; (lia || done).
  - intros Hout. pose proof (getitem_below (keys app) (p - 1) Hout) as Hg.
    split; [done|]. apply guards_passed_raise; (lia || done).
Qed.

(** C4, amended. For a non-empty symbol list and a page [p] greater
    than the number of symbols, every page-consuming callback returns
    its out-of-range message and does not raise or index the list:
    the tab content (eight times), the decision summary and the two
    debate tabs return "Page index out of range. Please refresh or
    restart analysis.", the current-symbol label returns "Invalid
    page". (With an empty symbol list the first guard answers with
    the empty-registry placeholder instead.) *)
Theorem stale_page_message app p :
  keys app ≠ [] → len (keys app) < p →
  update_tabs_content get_state validate_reports_for_ui app (Some p)
    = Ok (replicate 8 (Markdown out_of_range)) ∧
  update_decision_summary get_state app (Some p) = Ok out_of_range ∧
  update_researcher_debate render_researcher_debate app (Some p)
    = Ok (Markdown out_of_range) ∧
  update_risk_debate render_risk_debate app (Some p) = Ok (Markdown out_of_range) ∧
  update_report_display_text app (Some p) = Ok "Invalid page".
Proof.
  intros Hne Hp. apply has_symbols_keys in Hne.
  assert (0 <= len (keys app)) by (unfold len; lia).
  unfold update_tabs_content, update_decision_summary,
    update_researcher_debate, update_risk_debate, update_report_display_text.
  rewrite Hne, (proj2 (Z.eqb_neq p 0)), (proj2 (Z.ltb_lt _ _) Hp) by lia.
  by repeat split.
Qed.

End Pages.

(** ** Report tabs *)

Section Tabs.

Variable get_state : AppState -> string -> option SymbolState.
Variable validate_reports_for_ui : gmap string string -> gmap string string.

Local Abbreviation entry := (validated_entry validate_reports_for_ui).
Local Abbreviation text_of := (slot_text validate_reports_for_ui).

(** Reads of a dictionary literal. *)
Ltac map_get :=
  unfold Py.get_default; cbn [list_to_map foldr uncurry fst snd];
  repeat (rewrite lookup_insert_eq || rewrite lookup_insert_ne by done).

Lemma eq_str_true status lit : Py.eq_str status lit = true ↔ status = Some lit.
Proof.
  destruct status as [s|]; simpl; [|done].
  rewrite String.eqb_eq. split; congruence.
Qed.

Lemma eq_str_false status lit : Py.eq_str status lit = false ↔ status ≠ Some lit.
Proof. rewrite <- eq_str_true. by destruct (Py.eq_str status lit). Qed.

Lemma truthy_some c : c ≠ "" → Py.truthy (Some c) = true.
Proof. by destruct c. Qed.

(** A text that is not blank is rendered as it is. *)
Lemma create_markdown_content_shown text message :
  Py.is_blank text = false → create_markdown_content text message = Markdown text.
Proof.
  intros Hblank. unfold create_markdown_content. rewrite Hblank.
  by destruct text.
Qed.

(** With a validator that keeps its slot, a round of the loop never
    raises. *)
Lemma validated_entry_total report_type status content :
  keeps_slot validate_reports_for_ui →
  ∃ text, entry report_type status content = Ok text.
Proof.
  intros Hkeep. unfold validated_entry.
  destruct (Py.eq_str status "completed" && Py.truthy content); [by eexists|].
  destruct (Py.eq_str status "in_progress"); [by eexists|].
  destruct (Py.eq_str status "pending"); [by eexists|].
  destruct (Py.truthy content); [|by eexists].
  unfold Py.subscript.
  destruct (Hkeep report_type (Py.text content)) as [text ->]. by eexists.
Qed.

(** The precedence of one round of the loop. *)
Lemma validated_entry_precedence report_type status content text :
  entry report_type status content = Ok text →
  (∀ c, status = Some "completed" → content = Some c → c ≠ "" → text = c) ∧
  (status = Some "in_progress" →
   text = "🔄 " +:+ slot_title report_type +:+ " - Analysis in progress...") ∧
  (status = Some "pending" →
   text = "⏳ " +:+ slot_title report_type +:+ " - Waiting to start...") ∧
  (∀ c, status ≠ Some "completed" → status ≠ Some "in_progress" →
        status ≠ Some "pending" → content = Some c → c ≠ "" →
        validate_reports_for_ui {[report_type := c]} !! report_type = Some text) ∧
  (status ≠ Some "in_progress" → status ≠ Some "pending" →
   Py.truthy content = false →
   text = "No " +:+ slot_title report_type +:+ " available yet.").
Proof.
  unfold validated_entry. intros Hentry.
  repeat split.
  - intros c -> -> Hc. rewrite truthy_some in Hentry by done.
    simpl in Hentry. congruence.
  - intros ->. simpl in Hentry. congruence.
  - intros ->. simpl in Hentry. congruence.
  - intros c H1 H2 H3 -> Hc.
    apply eq_str_false in H1, H2, H3.
    rewrite H1, H2, H3, truthy_some in Hentry by done. simpl in Hentry.
    unfold Py.subscript in Hentry.
    by destruct (validate_reports_for_ui {[report_type := c]} !! report_type);
      simplify_eq.
  - intros H2 H3 Hc. apply eq_str_false in H2, H3.
    rewrite H2, H3, Hc, andb_false_r in Hentry. congruence.
Qed.

(** The eight outputs in tab order, from the five resolved texts. *)
Lemma tabs_of_state_texts state market sentiment news fundamentals macro :
  text_of state ("market_report", "Market Analyst") = Ok market →
  text_of state ("sentiment_report", "Social Analyst") = Ok sentiment →
  text_of state ("news_report", "News Analyst") = Ok news →
  text_of state ("fundamentals_report", "Fundamentals Analyst") = Ok fundamentals →
  text_of state ("macro_report", "Macro Analyst") = Ok macro →
  tabs_of_state validate_reports_for_ui state
  = Ok ((λ text, create_markdown_content text default_message) <$>
        [market; sentiment; news; fundamentals; macro;
         Py.or_default (current_reports state !! "research_manager_report")
           "No research manager decision available yet.";
         Py.or_default (current_reports state !! "trader_investment_plan")
           "No trader report available yet.";
         Py.or_default (current_reports state !! "final_trade_decision")
           "No final decision available yet."]).
Proof.
  unfold slot_text, tabs_of_state. simpl fst. simpl snd.
  intros H1 H2 H3 H4 H5.
  cbn [validate_loop].
  map_get. rewrite H1. cbn [mbind result_bind].
  map_get. rewrite H2. cbn [mbind result_bind].
  map_get. rewrite H3. cbn [mbind result_bind].
  map_get. rewrite H4. cbn [mbind result_bind].
  map_get. rewrite H5. cbn [mbind result_bind].
  map_get.
  reflexivity.
Qed.

(** With a validator that keeps its slot, the eight outputs exist. *)
Lemma tabs_of_state_total state :
  keeps_slot validate_reports_for_ui →
  ∃ market sentiment news fundamentals macro,
    text_of state ("market_report", "Market Analyst") = Ok market ∧
    text_of state ("sentiment_report", "Social Analyst") = Ok sentiment ∧
    text_of state ("news_report", "News Analyst") = Ok news ∧
    text_of state ("fundamentals_report", "Fundamentals Analyst") = Ok fundamentals ∧
    text_of state ("macro_report", "Macro Analyst") = Ok macro.
Proof.
  intros Hkeep. unfold slot_text.
  destruct (validated_entry_total "market_report"
              (agent_statuses state !! "Market Analyst")
              (current_reports state !! "market_report") Hkeep) as [market ?].
  destruct (validated_entry_total "sentiment_report"
              (agent_statuses state !! "Social Analyst")
              (current_reports state !! "sentiment_report") Hkeep) as [sentiment ?].
  destruct (validated_entry_total "news_report"
              (agent_statuses state !! "News Analyst")
              (current_reports state !! "news_report") Hkeep) as [news ?].
  destruct (validated_entry_total "fundamentals_report"
              (agent_statuses state !! "Fundamentals Analyst")
              (current_reports state !! "fundamentals_report") Hkeep) as [fundamentals ?].
  destruct (validated_entry_total "macro_report"
              (agent_statuses state !! "Macro Analyst")
              (current_reports state !! "macro_report") Hkeep) as [macro ?].
  by exists market, sentiment, news, fundamentals, macro.
Qed.

(** A page within range whose symbol has a state shows that state. *)
Lemma tabs_page_state app p state :
  page_state get_state app p state →
  update_tabs_content get_state validate_reports_for_ui app (Some p)
  = tabs_of_state validate_reports_for_ui state.
Proof.
  intros (Hp & symbol & Hk & Hs).
  destruct (in_range_page get_state id id validate_reports_for_ui app p Hp)
    as (symbol' & Hk' & Hc & _).
  rewrite Hc. unfold tabs_of_symbol.
  replace symbol' with symbol by congruence. by rewrite Hs.
Qed.

(** The outputs of [tabs_of_state], when there are any, with the
    texts of the five rounds of the loop. *)
Lemma tabs_of_state_slots state outs :
  tabs_of_state validate_reports_for_ui state = Ok outs →
  ∃ market sentiment news fundamentals macro,
    text_of state ("market_report", "Market Analyst") = Ok market ∧
    text_of state ("sentiment_report", "Social Analyst") = Ok sentiment ∧
    text_of state ("news_report", "News Analyst") = Ok news ∧
    text_of state ("fundamentals_report", "Fundamentals Analyst") = Ok fundamentals ∧
    text_of state ("macro_report", "Macro Analyst") = Ok macro ∧
    outs = (λ text, create_markdown_content text default_message) <$>
           [market; sentiment; news; fundamentals; macro;
            Py.or_default (current_reports state !! "research_manager_report")
              "No research manager decision available yet.";
            Py.or_default (current_reports state !! "trader_investment_plan")
              "No trader report available yet.";
            Py.or_default (current_reports state !! "final_trade_decision")
              "No final decision available yet."].
Proof.
  intros Houts.
  destruct (text_of state ("market_report", "Market Analyst")) as [market|] eqn:H1;
    cycle 1.
  { revert Houts H1. unfold slot_text, tabs_of_state. simpl fst. simpl snd.
    cbn [validate_loop]. map_get. intros Houts H1. revert Houts. by rewrite H1. }
  destruct (text_of state ("sentiment_report", "Social Analyst")) as [sentiment|] eqn:H2;
    cycle 1.
  { revert Houts H1 H2. unfold slot_text, tabs_of_state. simpl fst. simpl snd.
    cbn [validate_loop]. map_get. intros Houts H1 H2. revert Houts.
    rewrite H1. cbn [mbind result_bind]. map_get. by rewrite H2. }
  destruct (text_of state ("news_report", "News Analyst")) as [news|] eqn:H3; cycle 1.
  { revert Houts H1 H2 H3. unfold slot_text, tabs_of_state. simpl fst. simpl snd.
    cbn [validate_loop]. map_get. intros Houts H1 H2 H3. revert Houts.
    rewrite H1. cbn [mbind result_bind]. map_get.
    rewrite H2. cbn [mbind result_bind]. map_get. by rewrite H3. }
  destruct (text_of state ("fundamentals_report", "Fundamentals Analyst"))
    as [fundamentals|] eqn:H4; cycle 1.
  { revert Houts H1 H2 H3 H4. unfold slot_text, tabs_of_state. simpl fst. simpl snd.
    cbn [validate_loop]. map_get. intros Houts H1 H2 H3 H4. revert Houts.
    rewrite H1. cbn [mbind result_bind]. map_get.
    rewrite H2. cbn [mbind result_bind]. map_get.
    rewrite H3. cbn [mbind result_bind]. map_get. by rewrite H4. }
  destruct (text_of state ("macro_report", "Macro Analyst")) as [macro|] eqn:H5; cycle 1.
  { revert Houts H1 H2 H3 H4 H5. unfold slot_text, tabs_of_state. simpl fst. simpl snd.
    cbn [validate_loop]. map_get. intros Houts H1 H2 H3 H4 H5. revert Houts.
    rewrite H1. cbn [mbind result_bind]. map_get.
    rewrite H2. cbn [mbind result_bind]. map_get.
    rewrite H3. cbn [mbind result_bind]. map_get.
    rewrite H4. cbn [mbind result_bind]. map_get. by rewrite H5. }
  exists market, sentiment, news, fundamentals, macro.
  do 5 (split; [done|]).
  rewrite (tabs_of_state_texts state _ _ _ _ _ H1 H2 H3 H4 H5) in Houts.
  by injection Houts as <-.
Qed.

(** What a panel shows of a text: the text, or the default message
    when the text is empty or white space only. *)
Lemma create_markdown_content_default text :
  create_markdown_content text default_message
  = Markdown (if Py.is_blank text then "No content available yet." else text).
Proof. unfold create_markdown_content. by destruct text. Qed.

(** A round of the loop returns unless the validator's answer lacks
    the slot it is asked for. *)
Lemma validated_entry_returns report_type status content :
  (∀ c, status ≠ Some "completed" → status ≠ Some "in_progress" →
        status ≠ Some "pending" → content = Some c → c ≠ "" →
        is_Some (validate_reports_for_ui {[report_type := c]} !! report_type)) →
  ∃ text, entry report_type status content = Ok text.
Proof.
  intros Hanswer. unfold validated_entry.
  destruct (Py.eq_str status "completed") eqn:H1.
  { destruct (Py.truthy content) eqn:Hc; simpl; [by eexists|].
    destruct (Py.eq_str status "in_progress"); [by eexists|].
    destruct (Py.eq_str status "pending"); by eexists. }
  simpl. destruct (Py.eq_str status "in_progress") eqn:H2; [by eexists|].
  destruct (Py.eq_str status "pending") eqn:H3; [by eexists|].
  destruct content as [[|a c]|]; simpl; [by eexists| |by eexists].
  apply eq_str_false in H1, H2, H3.
  destruct (Hanswer (String a c) H1 H2 H3 eq_refl) as [text Htext]; [done|].
  unfold Py.subscript. simpl Py.text. rewrite Htext. by eexists.
Qed.

(** The precedence of one slot, as the panel of its tab shows it. *)
Lemma slot_panel state report_type analyst title text :
  slot_title report_type = title →
  text_of state (report_type, analyst) = Ok text →
  let status := agent_statuses state !! analyst in
  let content := current_reports state !! report_type in
  let panel := create_markdown_content text default_message in
  (∀ c, status = Some "completed" → content = Some c → c ≠ "" →
        panel = Markdown (if Py.is_blank c then "No content available yet." else c)) ∧
  (status = Some "in_progress" →
   panel = Markdown ("🔄 " +:+ title +:+ " - Analysis in progress...")) ∧
  (status = Some "pending" →
   panel = Markdown ("⏳ " +:+ title +:+ " - Waiting to start...")) ∧
  (∀ c, status ≠ Some "completed" → status ≠ Some "in_progress" →
        status ≠ Some "pending" → content = Some c → c ≠ "" →
        ∃ validated,
          validate_reports_for_ui {[report_type := c]} !! report_type = Some validated ∧
          panel = Markdown (if Py.is_blank validated
                            then "No content available yet." else validated)) ∧
  (status ≠ Some "in_progress" → status ≠ Some "pending" →
   Py.truthy content = false →
   panel = Markdown ("No " +:+ title +:+ " available yet.")).
Proof.
  intros <- Htext status content panel. unfold slot_text in Htext.
  simpl fst in Htext. simpl snd in Htext.
  destruct (validated_entry_precedence _ _ _ _ Htext) as (P1 & P2 & P3 & P4 & P5).
  unfold panel. repeat split.
  - intros c Hs Hc Hne. rewrite (P1 c Hs Hc Hne).
    apply create_markdown_content_default.
  - intros Hs. by rewrite (P2 Hs).
  - intros Hs. by rewrite (P3 Hs).
  - intros c H1 H2 H3 Hc Hne. exists text. split; [by apply P4|].
    apply create_markdown_content_default.
  - intros H2 H3 Hc. by rewrite (P5 H2 H3 Hc).
Qed.

(** C1, amended. For each of the five analyst slots (market,
    sentiment, news, fundamentals, macro) the panel that
    [update_tabs_content] returns for the slot's tab is decided, slot
    by slot, in this order: (1) status [completed] and non-empty
    content: the raw content, the validator not being asked; (2)
    status [in_progress]: the in-progress placeholder naming the slot,
    whatever the content; (3) status [pending]: the waiting-to-start
    placeholder naming the slot; (4) otherwise, non-empty content:
    the validator's entry for the slot; (5) otherwise the "not
    available yet" placeholder naming the slot. In (1) and (4) a text
    of white space only is shown as "No content available yet.". The
    callback returns whenever the validator's answers in (4) hold
    their slot. *)
Theorem analyst_slot_precedence app p state :
  page_state get_state app p state →
  (∀ outs,
     update_tabs_content get_state validate_reports_for_ui app (Some p) = Ok outs →
     ∀ i report_type analyst title,
       [("market_report", "Market Analyst", "Market Report");
        ("sentiment_report", "Social Analyst", "Sentiment Report");
        ("news_report", "News Analyst", "News Report");
        ("fundamentals_report", "Fundamentals Analyst", "Fundamentals Report");
        ("macro_report", "Macro Analyst", "Macro Report")] !! i
       = Some (report_type, analyst, title) →
       let status := agent_statuses state !! analyst in
       let content := current_reports state !! report_type in
       (∀ c, status = Some "completed" → content = Some c → c ≠ "" →
             outs !! i
             = Some (Markdown (if Py.is_blank c
                               then "No content available yet." else c))) ∧
       (status = Some "in_progress" →
        outs !! i = Some (Markdown ("🔄 " +:+ title +:+ " - Analysis in progress..."))) ∧
       (status = Some "pending" →
        outs !! i = Some (Markdown ("⏳ " +:+ title +:+ " - Waiting to start..."))) ∧
       (∀ c, status ≠ Some "completed" → status ≠ Some "in_progress" →
             status ≠ Some "pending" → content = Some c → c ≠ "" →
             ∃ validated,
               validate_reports_for_ui {[report_type := c]} !! report_type
               = Some validated ∧
               outs !! i
               = Some (Markdown (if Py.is_blank validated
                                 then "No content available yet." else validated))) ∧
       (status ≠ Some "in_progress" → status ≠ Some "pending" →
        Py.truthy content = false →
        outs !! i = Some (Markdown ("No " +:+ title +:+ " available yet.")))) ∧
  ((∀ i report_type analyst title c,
      [("market_report", "Market Analyst", "Market Report");
       ("sentiment_report", "Social Analyst", "Sentiment Report");
       ("news_report", "News Analyst", "News Report");
       ("fundamentals_report", "Fundamentals Analyst", "Fundamentals Report");
       ("macro_report", "Macro Analyst", "Macro Report")] !! i
      = Some (report_type, analyst, title) →
      agent_statuses state !! analyst ≠ Some "completed" →
      agent_statuses state !! analyst ≠ Some "in_progress" →
      agent_statuses state !! analyst ≠ Some "pending" →
      current_reports state !! report_type = Some c → c ≠ "" →
      is_Some (validate_reports_for_ui {[report_type := c]} !! report_type)) →
   ∃ outs, update_tabs_content get_state validate_reports_for_ui app (Some p) = Ok outs).
Proof.
  intros Hpage. rewrite (tabs_page_state _ _ _ Hpage). split.
  - intros outs Houts.
    destruct (tabs_of_state_slots state outs Houts)
      as (market & sentiment & news & fundamentals & macro &
          H1 & H2 & H3 & H4 & H5 & ->).
    intros i report_type analyst title Hslot.
    assert (∃ text,
              text_of state (report_type, analyst) = Ok text ∧
              slot_title report_type = title ∧
              ((λ text, create_markdown_content text default_message) <$>
               [market; sentiment; news; fundamentals; macro;
                Py.or_default (current_reports state !! "research_manager_report")
                  "No research manager decision available yet.";
                Py.or_default (current_reports state !! "trader_investment_plan")
                  "No trader report available yet.";
                Py.or_default (current_reports state !! "final_trade_decision")
                  "No final decision available yet."]) !! i
              = Some (create_markdown_content text default_message))
      as (text & Htext & Htitle & ->).
    { destruct i as [|[|[|[|[|i]]]]]; simpl in Hslot; simplify_eq.
      - by exists market.
      - by exists sentiment.
      - by exists news.
      - by exists fundamentals.
      - by exists macro. }
    destruct (slot_panel state report_type analyst title text Htitle Htext)
      as (P1 & P2 & P3 & P4 & P5).
    repeat split.
    + intros c Hs Hc Hne. f_equal. by apply P1.
    + intros Hs. f_equal. by apply P2.
    + intros Hs. f_equal. by apply P3.
    + intros c Hs1 Hs2 Hs3 Hc Hne.
      destruct (P4 c Hs1 Hs2 Hs3 Hc Hne) as (validated & Hv & Hp).
      exists validated. split; [done|]. by f_equal.
    + intros Hs2 Hs3 Hc. f_equal. by apply P5.
  - intros Hanswer. unfold slot_text.
    destruct (validated_entry_returns "market_report"
                (agent_statuses state !! "Market Analyst")
                (current_reports state !! "market_report")) as [market H1].
    { intros c. by apply (Hanswer 0%nat _ _ "Market Report"). }
    destruct (validated_entry_returns "sentiment_report"
                (agent_statuses state !! "Social Analyst")
                (current_reports state !! "sentiment_report")) as [sentiment H2].
    { intros c. by apply (Hanswer 1%nat _ _ "Sentiment Report"). }
    destruct (validated_entry_returns "news_report"
                (agent_statuses state !! "News Analyst")
                (current_reports state !! "news_report")) as [news H3].
    { intros c. by apply (Hanswer 2%nat _ _ "News Report"). }
    destruct (validated_entry_returns "fundamentals_report"
                (agent_statuses state !! "Fundamentals Analyst")
                (current_reports state !! "fundamentals_report")) as [fundamentals H4].
    { intros c. by apply (Hanswer 3%nat _ _ "Fundamentals Report"). }
    destruct (validated_entry_returns "macro_report"
                (agent_statuses state !! "Macro Analyst")
                (current_reports state !! "macro_report")) as [macro H5].
    { intros c. by apply (Hanswer 4%nat _ _ "Macro Report"). }
    eexists. by apply (tabs_of_state_texts state market sentiment news fundamentals macro).
Qed.

(** Within the pages the guards cover: for every input whose page is
    absent or not negative, and a validator that keeps its slot,
    [update_tabs_content] returns exactly eight outputs in the order
    market, sentiment, news, fundamentals, macro, research manager,
    trader plan, final decision; in each of the three early exits (no
    symbols or no active page; page beyond the symbol count; no state
    for the symbol) the eight outputs carry the same placeholder. *)
Theorem tabs_content_eight_outputs app active_page :
  keeps_slot validate_reports_for_ui →
  (∀ p, active_page = Some p → 0 <= p) →
  ∃ outs,
    update_tabs_content get_state validate_reports_for_ui app active_page = Ok outs ∧
    length outs = 8%nat ∧
    (keys app = [] ∨ active_page = None ∨ active_page = Some 0 →
     outs = replicate 8 (Markdown "No analysis available yet.")) ∧
    (∀ p, active_page = Some p → keys app ≠ [] → len (keys app) < p →
          outs = replicate 8 (Markdown out_of_range)) ∧
    (∀ p symbol, active_page = Some p → 1 <= p <= len (keys app) →
                 keys app !! Z.to_nat (p - 1) = Some symbol →
                 get_state app symbol = None →
                 outs = replicate 8 (Markdown "No data for this symbol.")) ∧
    (∀ p state, active_page = Some p → page_state get_state app p state →
       ∃ market sentiment news fundamentals macro,
         text_of state ("market_report", "Market Analyst") = Ok market ∧
         text_of state ("sentiment_report", "Social Analyst") = Ok sentiment ∧
         text_of state ("news_report", "News Analyst") = Ok news ∧
         text_of state ("fundamentals_report", "Fundamentals Analyst") = Ok fundamentals ∧
         text_of state ("macro_report", "Macro Analyst") = Ok macro ∧
         outs = (λ text, create_markdown_content text default_message) <$>
                [market; sentiment; news; fundamentals; macro;
                 Py.or_default (current_reports state !! "research_manager_report")
                   "No research manager decision available yet.";
                 Py.or_default (current_reports state !! "trader_investment_plan")
                   "No trader report available yet.";
                 Py.or_default (current_reports state !! "final_trade_decision")
                   "No final decision available yet."]).
Proof.
  intros Hkeep Hnonneg.
  assert (0 <= len (keys app)) as Hlen by (unfold len; lia).
  destruct active_page as [p|]; cycle 1.
  { eexists. split; [reflexivity|]. repeat split; intros; simplify_eq; done. }
  specialize (Hnonneg p eq_refl).
  destruct (has_symbols app) eqn:Hs; cycle 1.
  { assert (len (keys app) = 0) as Hk.
    { destruct (has_symbols_len app) as [_ Hk].
      destruct (decide (0 < len (keys app))) as [Hpos|]; [|lia].
      apply Hk in Hpos. congruence. }
    unfold update_tabs_content. rewrite Hs. simpl.
    eexists. split; [reflexivity|].
    repeat split; intros; simplify_eq; try done; try lia.
    - assert (keys app = []) by (destruct (keys app); [done|unfold len in Hk; simpl in Hk; lia]).
      done.
    - match goal with H : page_state _ _ _ _ |- _ => destruct H as [? _] end. lia. }
  pose proof (proj1 (has_symbols_keys app) Hs) as Hk.
  destruct (decide (p = 0)) as [->|Hp0].
  { unfold update_tabs_content. rewrite Hs. simpl.
    eexists. split; [reflexivity|].
    repeat split; intros; simplify_eq; try done; try lia.
    match goal with H : page_state _ _ _ _ |- _ => destruct H as [? _] end. lia. }
  destruct (decide (len (keys app) < p)) as [Hbig|Hin].
  { destruct (stale_page_message get_state id id validate_reports_for_ui app p Hk Hbig)
      as (-> & _).
    eexists. split; [reflexivity|].
    repeat split; intros; simplify_eq; try done; try lia.
    - match goal with H : _ ∨ _ |- _ => destruct H as [|[|]]; simplify_eq end.
    - match goal with H : page_state _ _ _ _ |- _ => destruct H as [? _] end. lia. }
  assert (1 <= p <= len (keys app)) as Hr by lia.
  destruct (in_range_page get_state id id validate_reports_for_ui app p Hr)
    as (symbol & Hsym & Hc & _).
  rewrite Hc. unfold tabs_of_symbol.
  destruct (get_state app symbol) as [state|] eqn:Hstate.
  - destruct (tabs_of_state_total state Hkeep)
      as (market & sentiment & news & fundamentals & macro & H1 & H2 & H3 & H4 & H5).
    rewrite (tabs_of_state_texts state _ _ _ _ _ H1 H2 H3 H4 H5).
    eexists. split; [reflexivity|].
    split; [done|]. split; [|split; [|split]].
    + intros [|[|]]; simplify_eq.
    + intros; simplify_eq; lia.
    + intros; simplify_eq.
    + intros p' state' Hp' (_ & symbol' & Hsym' & Hstate'). simplify_eq.
      by exists market, sentiment, news, fundamentals, macro.
  - eexists. split; [reflexivity|].
    split; [done|]. split; [|split; [|split]].
    + intros [|[|]]; simplify_eq.
    + intros; simplify_eq; lia.
    + done.
    + intros p' state' Hp' (_ & symbol' & Hsym' & Hstate'). simplify_eq.
Qed.

End Tabs.

(** ** Decision summary *)

Section Decision.

Variable get_state : AppState -> string -> option SymbolState.

Local Abbreviation final_report state :=
  (current_reports state !! "final_trade_decision").

(** A page within range whose symbol has a state is summarised from
    that state. *)
Lemma decision_page_state app p state :
  page_state get_state app p state →
  update_decision_summary get_state app (Some p) = decision_of_state state.
Proof.
  intros (Hp & symbol & Hk & Hs).
  destruct (in_range_page get_state id id id app p Hp) as (symbol' & Hk' & _ & Hc & _).
  rewrite Hc. unfold decision_of_symbol.
  replace symbol' with symbol by congruence. by rewrite Hs.
Qed.

(** [risk_debate_latest] never raises: it is the last piece of the
    history split on newline, also when there is no history. *)
Lemma risk_debate_latest_last state :
  ∃ pieces latest,
    Py.split "010" (Py.text (risk_history state)) = pieces ++ [latest] ∧
    risk_debate_latest state = Ok latest.
Proof.
  unfold risk_debate_latest.
  destruct (risk_history state) as [[|a history]|]; simpl Py.truthy; cbv iota.
  - by exists [], "".
  - destruct (split_pieces "010" (String a history)) as (pieces & latest & Hsplit).
    exists pieces, latest. split; [done|].
    simpl Py.text. simpl Py.nonempty. cbv iota.
    rewrite Hsplit. apply getitem_last.
  - by exists [], "".
Qed.

(** The [or]-chain picks the first non-empty candidate. *)
Lemma current_decision_first state latest :
  match first_nonempty [final_report state; Some latest;
                        current_reports state !! "trader_investment_plan";
                        current_reports state !! "research_manager_report"] with
  | Some d => current_decision state latest = Some d ∧ Py.truthy (Some d) = true
  | None => Py.truthy (current_decision state latest) = false
  end.
Proof.
  unfold current_decision, Py.or_else. simpl first_nonempty.
  destruct (final_report state) as [[|??]|], latest as [|??],
    (current_reports state !! "trader_investment_plan") as [[|??]|],
    (current_reports state !! "research_manager_report") as [[|??]|]; by simpl.
Qed.

(** The partial summary, once something is available. *)
Lemma partial_summary_shape state :
  available_reports state ≠ [] →
  ∃ pieces latest,
    Py.split "010" (Py.text (risk_history state)) = pieces ++ [latest] ∧
    partial_summary_text state =
    Ok ("## Partial Analysis for " +:+ ticker_symbol state +:+ Py.LF +:+ Py.LF +:+
        "**Completed Reports:** " +:+ Py.join ", " (available_reports state) +:+
        Py.LF +:+ Py.LF +:+
        match first_nonempty [final_report state; Some latest;
                              current_reports state !! "trader_investment_plan";
                              current_reports state !! "research_manager_report"] with
        | Some d =>
            "**Current Decision:** Based on completed analysis" +:+ Py.LF +:+ Py.LF +:+ d
        | None => ""
        end).
Proof.
  intros Havail.
  destruct (risk_debate_latest_last state) as (pieces & latest & Hsplit & Hlatest).
  exists pieces, latest. split; [done|].
  unfold partial_summary_text.
  rewrite bool_decide_eq_true_2 by done.
  rewrite Hlatest. cbn [mbind result_bind].
  pose proof (current_decision_first state latest) as Hfirst.
  destruct (first_nonempty _) as [d|].
  - destruct Hfirst as [-> ->]. done.
  - by rewrite Hfirst.
Qed.

(** A report that is present is listed. *)
Lemma final_report_listed state :
  final_report state ≠ None →
  "Portfolio Manager Final Decision" ∈ available_reports state.
Proof.
  intros Hfinal. unfold available_reports.
  rewrite (bool_decide_eq_true_2 _ Hfinal).
  rewrite !elem_of_app. do 8 right. apply list_elem_of_here.
Qed.

(** C7. In the partial branch of [update_decision_summary] (the
    analysis is not confirmed complete and at least one of the nine
    tracked artifacts is listed) the one "Current Decision" text is
    the first non-empty of: the final report, the last line of the
    risk-debate history (the [history] entry of [risk_debate_state])
    split on newline, the trader investment plan, the research manager
    report. *)
Theorem current_decision_precedence app p state :
  page_state get_state app p state →
  flag_set (analysis_complete state) = false ∨ final_report state = None →
  available_reports state ≠ [] →
  ∃ pieces latest,
    Py.split "010" (Py.text (default ∅ (risk_debate_state state) !! "history"))
    = pieces ++ [latest] ∧
    update_decision_summary get_state app (Some p) =
    Ok ("## Partial Analysis for " +:+ ticker_symbol state +:+ Py.LF +:+ Py.LF +:+
        "**Completed Reports:** " +:+ Py.join ", " (available_reports state) +:+
        Py.LF +:+ Py.LF +:+
        match first_nonempty [final_report state; Some latest;
                              current_reports state !! "trader_investment_plan";
                              current_reports state !! "research_manager_report"] with
        | Some d =>
            "**Current Decision:** Based on completed analysis" +:+ Py.LF +:+ Py.LF +:+ d
        | None => ""
        end).
Proof.
  intros Hpage Hpartial Havail.
  rewrite (decision_page_state _ _ _ Hpage). unfold decision_of_state.
  replace (flag_set (analysis_complete state) && bool_decide (final_report state ≠ None))
    with false.
  - by apply partial_summary_shape.
  - destruct Hpartial as [->| ->]; [done|].
    rewrite bool_decide_eq_false_2 by (intros H; by apply H). by rewrite andb_false_r.
Qed.

(** C2. When [analysis_complete] is false or absent and the final
    report is a non-empty text, [update_decision_summary] does not
    take the "Final Decision" branch: its output is the partial
    summary, which differs from every final-decision text, and the
    report surfaces there as the "Current Decision", being the first
    non-empty candidate of the fallback chain. *)
Theorem race_guard app p state c :
  page_state get_state app p state →
  flag_set (analysis_complete state) = false →
  final_report state = Some c → c ≠ "" →
  ∃ out,
    update_decision_summary get_state app (Some p) = Ok out ∧
    (∀ text, out ≠ final_decision_text state text) ∧
    "Portfolio Manager Final Decision" ∈ available_reports state ∧
    out = "## Partial Analysis for " +:+ ticker_symbol state +:+ Py.LF +:+ Py.LF +:+
          "**Completed Reports:** " +:+ Py.join ", " (available_reports state) +:+
          Py.LF +:+ Py.LF +:+
          "**Current Decision:** Based on completed analysis" +:+ Py.LF +:+ Py.LF +:+ c.
Proof.
  intros Hpage Hflag Hfinal Hc.
  assert ("Portfolio Manager Final Decision" ∈ available_reports state) as Hin.
  { apply final_report_listed. by rewrite Hfinal. }
  assert (available_reports state ≠ []) as Havail.
  { intros Hnil. rewrite Hnil in Hin. by apply not_elem_of_nil in Hin. }
  rewrite (decision_page_state _ _ _ Hpage). unfold decision_of_state.
  rewrite Hflag. simpl andb. cbv iota.
  destruct (partial_summary_shape state Havail) as (pieces & latest & _ & ->).
  rewrite Hfinal. cbn [first_nonempty]. rewrite truthy_some by done.
  eexists. split; [reflexivity|]. split; [|done].
  intros text. unfold final_decision_text.
  destruct (has_results _); intros Heq;
    apply (f_equal (String.get 3)) in Heq; vm_compute in Heq; discriminate.
Qed.


Lemma elem_of_optional (label item : string) (b : bool) :
  label ∈ (if b then [item] else []) ↔ label = item ∧ b = true.
Proof.
  destruct b.
  - rewrite list_elem_of_singleton. split; [by intros ->|by intros [-> _]].
  - split; [intros H; by apply not_elem_of_nil in H|by intros [_ ?]].
Qed.

(** What [available_reports] lists: eight artifacts by the
    non-emptiness of their text, the final report by its presence. *)
Lemma available_reports_spec state label :
  label ∈ available_reports state ↔
  (label = "Market Analysis" ∧
   Py.truthy (current_reports state !! "market_report") = true) ∨
  (label = "Social Media Sentiment" ∧
   Py.truthy (current_reports state !! "sentiment_report") = true) ∨
  (label = "News Analysis" ∧
   Py.truthy (current_reports state !! "news_report") = true) ∨
  (label = "Fundamentals Analysis" ∧
   Py.truthy (current_reports state !! "fundamentals_report") = true) ∨
  (label = "Macro Analysis" ∧
   Py.truthy (current_reports state !! "macro_report") = true) ∨
  (label = "Research Manager Decision" ∧
   Py.truthy (current_reports state !! "research_manager_report") = true) ∨
  (label = "Trader Investment Plan" ∧
   Py.truthy (current_reports state !! "trader_investment_plan") = true) ∨
  (label = "Risk Debate" ∧ Py.truthy (risk_history state) = true) ∨
  (label = "Portfolio Manager Final Decision" ∧ final_report state ≠ None).
Proof.
  unfold available_reports.
  rewrite !elem_of_app, !elem_of_optional, bool_decide_eq_true. tauto.
Qed.

(** C10. [update_decision_summary] tests the final report with
    [is not None], not for non-emptiness: flagged complete with the
    empty string as final report it still takes the "Final Decision"
    branch (and, without structured results, renders "Full Analysis"
    with an empty body); in the partial branch an empty final report
    is still listed among the completed reports, while each of the
    other eight artifacts is listed only when its text is
    non-empty. *)
Theorem final_report_presence_test app p state :
  page_state get_state app p state →
  (flag_set (analysis_complete state) = true → final_report state = Some "" →
   update_decision_summary get_state app (Some p) = Ok (final_decision_text state "") ∧
   (has_results (analysis_results state) = false →
    update_decision_summary get_state app (Some p) =
    Ok ("## Final Decision for " +:+ ticker_symbol state +:+ Py.LF +:+ Py.LF +:+
        (if Py.truthy (recommended_action state) then
           "**📈 RECOMMENDED ACTION: " +:+ Py.text (recommended_action state) +:+
           "**" +:+ Py.LF +:+ Py.LF
         else "") +:+
        "**Full Analysis:**" +:+ Py.LF +:+ ""))) ∧
  (flag_set (analysis_complete state) = false → final_report state = Some "" →
   "Portfolio Manager Final Decision" ∈ available_reports state ∧
   ∃ pieces latest,
     Py.split "010" (Py.text (risk_history state)) = pieces ++ [latest] ∧
     update_decision_summary get_state app (Some p) =
     Ok ("## Partial Analysis for " +:+ ticker_symbol state +:+ Py.LF +:+ Py.LF +:+
         "**Completed Reports:** " +:+ Py.join ", " (available_reports state) +:+
         Py.LF +:+ Py.LF +:+
         match first_nonempty [Some latest;
                               current_reports state !! "trader_investment_plan";
                               current_reports state !! "research_manager_report"] with
         | Some d =>
             "**Current Decision:** Based on completed analysis" +:+
             Py.LF +:+ Py.LF +:+ d
         | None => ""
         end)) ∧
  (∀ label,
     label ∈ available_reports state ↔
     (label = "Market Analysis" ∧
      Py.truthy (current_reports state !! "market_report") = true) ∨
     (label = "Social Media Sentiment" ∧
      Py.truthy (current_reports state !! "sentiment_report") = true) ∨
     (label = "News Analysis" ∧
      Py.truthy (current_reports state !! "news_report") = true) ∨
     (label = "Fundamentals Analysis" ∧
      Py.truthy (current_reports state !! "fundamentals_report") = true) ∨
     (label = "Macro Analysis" ∧
      Py.truthy (current_reports state !! "macro_report") = true) ∨
     (label = "Research Manager Decision" ∧
      Py.truthy (current_reports state !! "research_manager_report") = true) ∨
     (label = "Trader Investment Plan" ∧
      Py.truthy (current_reports state !! "trader_investment_plan") = true) ∨
     (label = "Risk Debate" ∧ Py.truthy (risk_history state) = true) ∨
     (label = "Portfolio Manager Final Decision" ∧ final_report state ≠ None)).
Proof.
  intros Hpage. rewrite (decision_page_state _ _ _ Hpage).
  split; [|split].
  - intros Hflag Hfinal. unfold decision_of_state.
    rewrite Hflag, Hfinal. simpl.
    split; [done|]. intros Hres. unfold final_decision_text. by rewrite Hres.
  - intros Hflag Hfinal.
    assert ("Portfolio Manager Final Decision" ∈ available_reports state) as Hin.
    { apply final_report_listed. by rewrite Hfinal. }
    split; [done|].
    assert (available_reports state ≠ []) as Havail.
    { intros Hnil. rewrite Hnil in Hin. by apply not_elem_of_nil in Hin. }
    destruct (partial_summary_shape state Havail) as (pieces & latest & Hsplit & Hout).
    exists pieces, latest. split; [done|].
    unfold decision_of_state. rewrite Hflag. simpl andb. cbv iota.
    rewrite Hout, Hfinal. done.
  - apply available_reports_spec.
Qed.

End Decision.

(** ** Symbol buttons and the click handler *)

Section Clicks.

Variable json_index : string -> result Z.

(** The appending loop, from any starting index and accumulator. *)
Lemma buttons_loop (symbols : list string) (active_index : Z) :
  ∀ (start : nat) (acc : list Component),
    foldl (λ buttons '(i, symbol),
             buttons ++ [create_symbol_button symbol i (Z.of_nat i =? active_index)])
          acc (zip (seq start (length symbols)) symbols)
    = acc ++ imap (λ k symbol,
                     create_symbol_button symbol (start + k)
                       (Z.of_nat (start + k) =? active_index)) symbols.
Proof.
  induction symbols as [|symbol symbols IH]; intros start acc; simpl.
  - by rewrite app_nil_r.
  - rewrite IH, <- app_assoc. simpl. rewrite Nat.add_0_r.
    do 2 f_equal. apply imap_ext. intros k s _. simpl.
    by rewrite Nat.add_succ_r.
Qed.

(** One button per symbol, in order, the clicked one marked active. *)
Lemma symbol_buttons_lookup (symbols : list string) (active_index : Z) (j : nat) :
  symbol_buttons symbols active_index !! j
  = (λ symbol, create_symbol_button symbol j (Z.of_nat j =? active_index))
      <$> symbols !! j.
Proof.
  unfold symbol_buttons, enumerate.
  rewrite buttons_loop. simpl. by rewrite list_lookup_imap.
Qed.

Lemma symbol_buttons_length (symbols : list string) (active_index : Z) :
  length (symbol_buttons symbols active_index) = length symbols.
Proof.
  unfold symbol_buttons, enumerate.
  rewrite buttons_loop. simpl. apply length_imap.
Qed.

Local Abbreviation unchanged app := (app, (@no_update Z, @no_update Z, @no_update Component)).

(** C6. A click on the symbol button with index [i]: when
    [0 <= i < len(symbols)], [handle_report_symbol_click] sets the
    current symbol to [symbols[i]] and returns page [i+1] for both
    pagination outputs, with a button set rendered at once: one button
    per symbol, the one at index [i] drawn active (colour "primary",
    class "symbol-btn active") and every other one inactive (colour
    "outline-primary"), in a plain group for a single symbol and in
    the wrapper with the "Showing n symbols" line otherwise; when
    there is no valid
    index (no clicks recorded, no trigger, an index out of range, or
    a trigger that is no symbol button) it returns [no_update] three
    times and leaves the state as it was. *)
Theorem symbol_click app symbol_clicks triggered :
  (∀ button_id rest id_part pieces i,
     any_clicks symbol_clicks = true → triggered = button_id :: rest →
     Py.contains "symbol-btn" button_id = true →
     Py.split "." button_id = id_part :: pieces → json_index id_part = Ok i →
     0 <= i < len (keys app) →
     ∃ symbol buttons,
       keys app !! Z.to_nat i = Some symbol ∧
       handle_report_symbol_click json_index app symbol_clicks triggered
       = Ok ({| symbol_states := symbol_states app; current_symbol := Some symbol |},
             (Set_to (i + 1), Set_to (i + 1),
              Set_to (if 1 <? len (keys app) then
                        Div [ButtonGroup buttons "d-flex flex-wrap justify-content-center";
                             Div [Icon "fas fa-info-circle me-2";
                                  Text ("Showing " +:+
                                        Py.str_of_nat (length (keys app)) +:+
                                        " symbols")]
                               "text-muted small text-center mt-2"]
                          "symbol-pagination-wrapper"
                      else ButtonGroup buttons "d-flex justify-content-center"))) ∧
       length buttons = length (keys app) ∧
       ∀ j s, keys app !! j = Some s →
              buttons !! j
              = Some (if Z.of_nat j =? i
                      then Button s j "primary" "symbol-btn active"
                      else Button s j "outline-primary" "symbol-btn ")) ∧
  (any_clicks symbol_clicks = false ∨ triggered = [] →
   handle_report_symbol_click json_index app symbol_clicks triggered
   = Ok (unchanged app)) ∧
  (∀ button_id rest id_part pieces i,
     triggered = button_id :: rest →
     Py.split "." button_id = id_part :: pieces → json_index id_part = Ok i →
     ¬ (0 <= i < len (keys app)) →
     handle_report_symbol_click json_index app symbol_clicks triggered
     = Ok (unchanged app)) ∧
  (∀ button_id rest,
     triggered = button_id :: rest →
     Py.contains "symbol-btn" button_id = false →
     handle_report_symbol_click json_index app symbol_clicks triggered
     = Ok (unchanged app)).
Proof.
  unfold handle_report_symbol_click. repeat split.
  - intros button_id rest id_part pieces i Hany -> Hbtn Hsplit Hjson Hi.
    destruct (getitem_nonneg (keys app) i Hi) as (symbol & Hsym & Hget).
    exists symbol, (symbol_buttons (keys app) i).
    split; [done|]. split; [|split].
    + rewrite Hany, bool_decide_eq_true_2 by done. simpl negb. cbv iota.
      rewrite getitem_head. cbn [mbind result_bind].
      rewrite Hbtn, Hsplit, getitem_head. cbn [mbind result_bind].
      rewrite Hjson. cbn [mbind result_bind].
      rewrite (proj2 (Z.leb_le 0 i)), (proj2 (Z.ltb_lt i _)) by lia.
      simpl andb. cbv iota. by rewrite Hget.
    + apply symbol_buttons_length.
    + intros j s Hj. rewrite symbol_buttons_lookup, Hj. simpl.
      by destruct (Z.of_nat j =? i).
  - intros [-> | ->]; [done|].
    rewrite bool_decide_eq_false_2 by (intros H; by apply H).
    by rewrite orb_true_r.
  - intros button_id rest id_part pieces i -> Hsplit Hjson Hi.
    destruct (negb (any_clicks symbol_clicks) || _); [done|].
    rewrite getitem_head. cbn [mbind result_bind].
    destruct (Py.contains "symbol-btn" button_id); [|done].
    rewrite Hsplit, getitem_head. cbn [mbind result_bind].
    rewrite Hjson. cbn [mbind result_bind].
    destruct (Z.leb_spec 0 i), (Z.ltb_spec i (len (keys app))); simpl; (done || lia).
  - intros button_id rest -> Hbtn.
    destruct (negb (any_clicks symbol_clicks) || _); [done|].
    rewrite getitem_head. cbn [mbind result_bind]. by rewrite Hbtn.
Qed.

End Clicks.

(** ** Tab router *)

(** The navigation identifiers the router knows. *)
Lemma tab_mapping_dom :
  dom tab_mapping
  = list_to_set ["nav-market"; "nav-social"; "nav-news"; "nav-fundamentals";
                 "nav-researcher"; "nav-research-mgr"; "nav-trader";
                 "nav-risk-agg"; "nav-risk-cons"; "nav-risk-neut"; "nav-final"].
Proof. unfold tab_mapping. rewrite dom_list_to_map_L. reflexivity. Qed.

(** The router reads the identifier before the first dot of the first
    trigger and looks it up. *)
Lemma switch_tab_lookup args prop_id rest trigger_id pieces :
  Py.split "." prop_id = trigger_id :: pieces →
  switch_tab args (prop_id :: rest)
  = Ok (Py.get_default tab_mapping trigger_id "market-analysis").
Proof.
  intros Hsplit. unfold switch_tab.
  rewrite bool_decide_eq_true_2 by done. simpl negb. cbv iota.
  rewrite getitem_head. cbn [mbind result_bind].
  by rewrite Hsplit, getitem_head.
Qed.

(** C8. [switch_tab] looks the triggering navigation identifier up in
    a fixed table and reads nothing else: the three risk-stance
    triggers (nav-risk-agg, nav-risk-cons, nav-risk-neut) all give
    "risk-debate"; an absent or unrecognised trigger gives the first
    tab, "market-analysis". *)
Theorem tab_router :
  (∀ args args' triggered, switch_tab args triggered = switch_tab args' triggered) ∧
  (∀ args property rest,
     switch_tab args (("nav-risk-agg." +:+ property) :: rest) = Ok "risk-debate" ∧
     switch_tab args (("nav-risk-cons." +:+ property) :: rest) = Ok "risk-debate" ∧
     switch_tab args (("nav-risk-neut." +:+ property) :: rest) = Ok "risk-debate") ∧
  (∀ args, switch_tab args [] = Ok "market-analysis") ∧
  (∀ args prop_id rest trigger_id pieces,
     Py.split "." prop_id = trigger_id :: pieces →
     trigger_id ∉ dom tab_mapping →
     switch_tab args (prop_id :: rest) = Ok "market-analysis").
Proof.
  split; [done|]. split; [|split].
  - intros args property rest.
    repeat split;
      (erewrite switch_tab_lookup; [|by cbv [String.app Py.split Ascii.eqb Bool.eqb]]);
      by vm_compute.
  - done.
  - intros args prop_id rest trigger_id pieces Hsplit Hnot.
    rewrite (switch_tab_lookup _ _ _ _ _ Hsplit).
    apply not_elem_of_dom in Hnot. unfold Py.get_default. by rewrite Hnot.
Qed.

(** ** The model at work *)

Example title_of_slot : slot_title "market_report" = "Market Report".
Proof. reflexivity. Qed.

Example split_trailing_newline :
  Py.split "010" ("a" +:+ Py.LF +:+ "bc" +:+ Py.LF) = ["a"; "bc"; ""].
Proof. reflexivity. Qed.

Example getitem_wraps : Py.getitem ["AAPL"; "MSFT"; "NVDA"] (-2) = Ok "MSFT".
Proof. reflexivity. Qed.

Example blank_content_gets_default :
  create_markdown_content "   " default_message = Markdown "No content available yet.".
Proof. reflexivity. Qed.

Example tabs_of_aapl :
  update_tabs_content Sample.get_state Sample.validate Sample.three_symbols (Some 1)
  = Ok [Markdown "Uptrend.";
        Markdown "⏳ Sentiment Report - Waiting to start...";
        Markdown "🔄 News Report - Analysis in progress...";
        Markdown "No Fundamentals Report available yet.";
        Markdown "Rates steady.";
        Markdown "No research manager decision available yet.";
        Markdown "No trader report available yet.";
        Markdown "BUY"].
Proof. reflexivity. Qed.

Example summary_of_aapl :
  update_decision_summary Sample.get_state Sample.three_symbols (Some 1)
  = Ok ("## Partial Analysis for AAPL" +:+ Py.LF +:+ Py.LF +:+
        "**Completed Reports:** Market Analysis, Macro Analysis, Risk Debate, " +:+
        "Portfolio Manager Final Decision" +:+ Py.LF +:+ Py.LF +:+
        "**Current Decision:** Based on completed analysis" +:+ Py.LF +:+ Py.LF +:+
        "BUY").
Proof. reflexivity. Qed.

Example summary_of_msft :
  update_decision_summary Sample.get_state Sample.three_symbols (Some 2)
  = Ok ("## Final Decision for MSFT" +:+ Py.LF +:+ Py.LF +:+
        "**Full Analysis:**" +:+ Py.LF).
Proof. reflexivity. Qed.

Example summary_of_nvda :
  update_decision_summary Sample.get_state Sample.three_symbols (Some 3)
  = Ok ("## Partial Analysis for NVDA" +:+ Py.LF +:+ Py.LF +:+
        "**Completed Reports:** Trader Investment Plan, " +:+
        "Portfolio Manager Final Decision" +:+ Py.LF +:+ Py.LF +:+
        "**Current Decision:** Based on completed analysis" +:+ Py.LF +:+ Py.LF +:+
        "Accumulate").
Proof. reflexivity. Qed.

Example click_second_button :
  handle_report_symbol_click Sample.json_index Sample.three_symbols
    [None; Some 1; None] [Sample.button_prop_id 1]
  = Ok ({| symbol_states := symbol_states Sample.three_symbols;
           current_symbol := Some "MSFT" |},
        (Set_to 2, Set_to 2,
         Set_to (Div [ButtonGroup
                        [Button "AAPL" 0 "outline-primary" "symbol-btn ";
                         Button "MSFT" 1 "primary" "symbol-btn active";
                         Button "NVDA" 2 "outline-primary" "symbol-btn "]
                        "d-flex flex-wrap justify-content-center";
                      Div [Icon "fas fa-info-circle me-2"; Text "Showing 3 symbols"]
                        "text-muted small text-center mt-2"]
                   "symbol-pagination-wrapper"))).
Proof. reflexivity. Qed.

(** ** The properties at the sample states *)

Lemma sample_validate_keeps_slot : keeps_slot Sample.validate.
Proof. intros k v. unfold Sample.validate. rewrite lookup_singleton_eq. by eexists. Qed.

Lemma page_resolves_to_symbol_witness :
  ∃ symbol,
    keys Sample.three_symbols !! Z.to_nat (2 - 1) = Some symbol ∧
    all_continue_with Sample.get_state Sample.render Sample.render Sample.validate
      Sample.three_symbols 2 symbol.
Proof.
  apply page_resolves_to_symbol.
  - discriminate.
  - vm_compute. split; discriminate.
Defined.

Lemma negative_page_wraps_witness :
  (negb (has_symbols Sample.three_symbols) || (-1 =? 0) = false ∧
   (len (keys Sample.three_symbols) <? -1) = false) ∧
  (0 <= len (keys Sample.three_symbols) + -1 - 1 →
   ∃ symbol,
     keys Sample.three_symbols !! Z.to_nat (len (keys Sample.three_symbols) + -1 - 1)
     = Some symbol ∧
     Py.getitem (keys Sample.three_symbols) (-1 - 1) = Ok symbol ∧
     all_continue_with Sample.get_state Sample.render Sample.render Sample.validate
       Sample.three_symbols (-1) symbol) ∧
  (-1 - 1 < - len (keys Sample.three_symbols) →
   Py.getitem (keys Sample.three_symbols) (-1 - 1) = Raise IndexError ∧
   all_raise Sample.get_state Sample.render Sample.render Sample.validate
     Sample.three_symbols (-1) IndexError).
Proof.
  apply negative_page_wraps.
  - discriminate.
  - reflexivity.
Defined.

Lemma stale_page_message_witness :
  update_tabs_content Sample.get_state Sample.validate Sample.one_symbol (Some 2)
  = Ok (replicate 8 (Markdown out_of_range)) ∧
  update_decision_summary Sample.get_state Sample.one_symbol (Some 2) = Ok out_of_range ∧
  update_researcher_debate Sample.render Sample.one_symbol (Some 2)
  = Ok (Markdown out_of_range) ∧
  update_risk_debate Sample.render Sample.one_symbol (Some 2) = Ok (Markdown out_of_range) ∧
  update_report_display_text Sample.one_symbol (Some 2) = Ok "Invalid page".
Proof.
  apply stale_page_message.
  - discriminate.
  - reflexivity.
Defined.

Lemma sample_page_aapl : page_state Sample.get_state Sample.three_symbols 1 Sample.aapl.
Proof.
  split; [vm_compute; split; discriminate|].
  exists "AAPL". split; reflexivity.
Defined.

Lemma sample_page_msft : page_state Sample.get_state Sample.three_symbols 2 Sample.msft.
Proof.
  split; [vm_compute; split; discriminate|].
  exists "MSFT". split; reflexivity.
Defined.

Lemma sample_page_nvda : page_state Sample.get_state Sample.three_symbols 3 Sample.nvda.
Proof.
  split; [vm_compute; split; discriminate|].
  exists "NVDA". split; reflexivity.
Defined.

Lemma analyst_slot_precedence_witness :
  ∃ outs,
    update_tabs_content Sample.get_state Sample.validate Sample.three_symbols (Some 1)
    = Ok outs ∧
    outs !! 0%nat = Some (Markdown "Uptrend.") ∧
    outs !! 1%nat = Some (Markdown "⏳ Sentiment Report - Waiting to start...") ∧
    outs !! 2%nat = Some (Markdown "🔄 News Report - Analysis in progress...") ∧
    outs !! 3%nat = Some (Markdown "No Fundamentals Report available yet.") ∧
    outs !! 4%nat = Some (Markdown "Rates steady.").
Proof.
  destruct (analyst_slot_precedence Sample.get_state Sample.validate
              Sample.three_symbols 1 Sample.aapl sample_page_aapl)
    as [Hshown Hreturns].
  destruct Hreturns as [outs Houts].
  { intros i report_type analyst title c _ _ _ _ _ _.
    unfold Sample.validate. rewrite lookup_singleton_eq. by eexists. }
  exists outs. split; [exact Houts|].
  split; [|split; [|split; [|split]]].
  - destruct (Hshown outs Houts 0%nat "market_report" "Market Analyst" "Market Report"
                eq_refl) as (Hcompleted & _).
    apply (Hcompleted "Uptrend."); [reflexivity|reflexivity|discriminate].
  - destruct (Hshown outs Houts 1%nat "sentiment_report" "Social Analyst"
                "Sentiment Report" eq_refl) as (_ & _ & Hpending & _).
    apply Hpending. reflexivity.
  - destruct (Hshown outs Houts 2%nat "news_report" "News Analyst" "News Report"
                eq_refl) as (_ & Hprogress & _).
    apply Hprogress. reflexivity.
  - destruct (Hshown outs Houts 3%nat "fundamentals_report" "Fundamentals Analyst"
                "Fundamentals Report" eq_refl) as (_ & _ & _ & _ & Hnone).
    apply Hnone; [vm_compute; discriminate|vm_compute; discriminate|reflexivity].
  - destruct (Hshown outs Houts 4%nat "macro_report" "Macro Analyst" "Macro Report"
                eq_refl) as (_ & _ & _ & Hvalidated & _).
    destruct (Hvalidated "Rates steady.") as (validated & Hanswer & Hpanel);
      [vm_compute; discriminate|vm_compute; discriminate|vm_compute; discriminate
      |reflexivity|discriminate|].
    vm_compute in Hanswer. injection Hanswer as <-. exact Hpanel.
Defined.

Lemma tabs_content_eight_outputs_witness :
  ∃ outs,
    update_tabs_content Sample.get_state Sample.validate Sample.three_symbols (Some 1)
    = Ok outs ∧
    length outs = 8%nat.
Proof.
  destruct (tabs_content_eight_outputs Sample.get_state Sample.validate
              Sample.three_symbols (Some 1)) as (outs & Hout & Hlen & _).
  - exact sample_validate_keeps_slot.
  - intros p Hp. injection Hp as <-. vm_compute. discriminate.
  - exists outs. split; [exact Hout|exact Hlen].
Defined.

Lemma sample_page_goog :
  page_state Sample.get_state Further.blank_and_debate 2 Further.goog.
Proof.
  split; [vm_compute; split; discriminate|].
  exists "GOOG". split; reflexivity.
Defined.

Lemma current_decision_precedence_witness :
  update_decision_summary Sample.get_state Further.blank_and_debate (Some 2)
  = Ok ("## Partial Analysis for GOOG" +:+ Py.LF +:+ Py.LF +:+
        "**Completed Reports:** Trader Investment Plan, Risk Debate" +:+
        Py.LF +:+ Py.LF +:+
        "**Current Decision:** Based on completed analysis" +:+ Py.LF +:+ Py.LF +:+
        "Safe: hold").
Proof.
  destruct (current_decision_precedence Sample.get_state Further.blank_and_debate 2
              Further.goog sample_page_goog) as (pieces & latest & Hsplit & Hout).
  - left. reflexivity.
  - vm_compute. discriminate.
  - rewrite Hout.
    assert (latest = "Safe: hold") as ->; [|reflexivity].
    change (Py.split "010"
              (Py.text (default ∅ (risk_debate_state Further.goog) !! "history")))
      with (["Risky: buy"] ++ ["Safe: hold"]) in Hsplit.
    by apply app_inj_tail in Hsplit as [_ <-].
Defined.

Lemma race_guard_witness :
  ∃ out,
    update_decision_summary Sample.get_state Sample.three_symbols (Some 1) = Ok out ∧
    (∀ text, out ≠ final_decision_text Sample.aapl text) ∧
    "Portfolio Manager Final Decision" ∈ available_reports Sample.aapl ∧
    out = "## Partial Analysis for " +:+ ticker_symbol Sample.aapl +:+ Py.LF +:+ Py.LF +:+
          "**Completed Reports:** " +:+ Py.join ", " (available_reports Sample.aapl) +:+
          Py.LF +:+ Py.LF +:+
          "**Current Decision:** Based on completed analysis" +:+ Py.LF +:+ Py.LF +:+ "BUY".
Proof.
  apply race_guard.
  - exact sample_page_aapl.
  - reflexivity.
  - reflexivity.
  - discriminate.
Defined.

Lemma final_report_presence_test_witness :
  update_decision_summary Sample.get_state Sample.three_symbols (Some 2)
  = Ok (final_decision_text Sample.msft "") ∧
  "Portfolio Manager Final Decision" ∈ available_reports Sample.nvda.
Proof.
  split.
  - destruct (final_report_presence_test Sample.get_state Sample.three_symbols 2
                Sample.msft sample_page_msft) as (Hcomplete & _).
    destruct Hcomplete as [Hfinal _]; [reflexivity..|]. exact Hfinal.
  - destruct (final_report_presence_test Sample.get_state Sample.three_symbols 3
                Sample.nvda sample_page_nvda) as (_ & Hpartial & _).
    destruct Hpartial as [Hlisted _]; [reflexivity..|]. exact Hlisted.
Defined.

Lemma symbol_click_witness :
  handle_report_symbol_click Sample.json_index Sample.three_symbols
    [None; Some 1; None] [Sample.button_prop_id 1]
  = Ok ({| symbol_states := symbol_states Sample.three_symbols;
           current_symbol := Some "MSFT" |},
        (Set_to 2, Set_to 2,
         Set_to (Div [ButtonGroup
                        [Button "AAPL" 0 "outline-primary" "symbol-btn ";
                         Button "MSFT" 1 "primary" "symbol-btn active";
                         Button "NVDA" 2 "outline-primary" "symbol-btn "]
                        "d-flex flex-wrap justify-content-center";
                      Div [Icon "fas fa-info-circle me-2"; Text "Showing 3 symbols"]
                        "text-muted small text-center mt-2"]
                   "symbol-pagination-wrapper"))).
Proof.
  destruct (symbol_click Sample.json_index Sample.three_symbols
              [None; Some 1; None] [Sample.button_prop_id 1]) as (Hvalid & _).
  destruct (Hvalid (Sample.button_prop_id 1) []
              (Sample.button_id 1) ["n_clicks"] 1)
    as (symbol & buttons & Hsymbol & Hclick & Hlength & Hbuttons).
  - reflexivity.
  - reflexivity.
  - reflexivity.
  - reflexivity.
  - reflexivity.
  - vm_compute. split; [discriminate|reflexivity].
  - rewrite Hclick.
    injection Hsymbol as <-.
    pose proof (Hbuttons 0%nat "AAPL" eq_refl) as H0.
    pose proof (Hbuttons 1%nat "MSFT" eq_refl) as H1.
    pose proof (Hbuttons 2%nat "NVDA" eq_refl) as H2.
    destruct buttons as [|b0 [|b1 [|b2 [|b3 buttons]]]]; try discriminate Hlength.
    injection H0 as ->. injection H1 as ->. injection H2 as ->.
    reflexivity.
Defined.

Lemma tab_router_witness :
  switch_tab [] ["nav-risk-cons.n_clicks"] = Ok "risk-debate" ∧
  switch_tab [] ["nav-settings.n_clicks"] = Ok "market-analysis".
Proof.
  destruct tab_router as (_ & Hrisk & _ & Hother).
  split.
  - apply (Hrisk [] "n_clicks" []).
  - apply (Hother [] "nav-settings.n_clicks" [] "nav-settings" ["n_clicks"]).
    + reflexivity.
    + apply not_elem_of_dom. reflexivity.
Defined.

(** ** Where the claims as first stated fail *)

(** C1, as stated: the market analyst is [completed] and its report is
    the non-empty text of one space, yet the market tab does not show
    that raw content: it shows the default message. *)
Lemma completed_blank_report_not_shown :
  agent_statuses Further.spce !! "Market Analyst" = Some "completed" ∧
  current_reports Further.spce !! "market_report" = Some " " ∧
  ∃ outs,
    update_tabs_content Sample.get_state Sample.validate Further.blank_and_debate (Some 1)
    = Ok outs ∧
    outs !! 0%nat = Some (Markdown "No content available yet.") ∧
    outs !! 0%nat ≠ Some (Markdown " ").
Proof.
  split; [reflexivity|]. split; [reflexivity|].
  eexists. split; [reflexivity|]. split; [reflexivity|]. discriminate.
Qed.

(** C3. [update_tabs_content] is to return exactly eight outputs for
    every input. It does not: with one symbol registered and page -1
    both guards are passed (the safeguard against an invalid page
    index has no lower bound), [symbols_list[-2]] raises [IndexError]
    and no output is returned. *)
Lemma tabs_content_negative_page_raises :
  update_tabs_content Sample.get_state Sample.validate Sample.one_symbol (Some (-1))
  = Raise IndexError ∧
  ¬ ∃ outs,
      update_tabs_content Sample.get_state Sample.validate Sample.one_symbol (Some (-1))
      = Ok outs ∧ length outs = 8%nat.
Proof.
  assert (update_tabs_content Sample.get_state Sample.validate Sample.one_symbol
            (Some (-1)) = Raise IndexError) as Hraise by reflexivity.
  split; [exact Hraise|].
  intros (outs & Hout & _). rewrite Hraise in Hout. discriminate.
Qed.

(** C4, as stated: page 1 is greater than the number of symbols of the
    empty registry, and the callbacks answer with their empty-registry
    placeholders, not with an out-of-range message. *)
Lemma empty_registry_stale_page :
  len (keys Sample.no_symbols) < 1 ∧
  update_tabs_content Sample.get_state Sample.validate Sample.no_symbols (Some 1)
  = Ok (replicate 8 (Markdown "No analysis available yet.")) ∧
  update_tabs_content Sample.get_state Sample.validate Sample.no_symbols (Some 1)
  ≠ Ok (replicate 8 (Markdown out_of_range)) ∧
  update_decision_summary Sample.get_state Sample.no_symbols (Some 1)
  = Ok "Analysis not complete yet." ∧
  update_researcher_debate Sample.render Sample.no_symbols (Some 1)
  = Ok (Markdown "No researcher debate available yet.") ∧
  update_risk_debate Sample.render Sample.no_symbols (Some 1)
  = Ok (Markdown "No risk debate available yet.") ∧
  update_report_display_text Sample.no_symbols (Some 1) = Ok "".
Proof. repeat split; try reflexivity. discriminate. Qed.

(** * Further properties *)

(** ** The symbol buttons of both render paths *)

(** [index] finds a listed symbol, at a position that holds it. *)
Lemma index_found (x : string) (l : list string) :
  x ∈ l → ∃ i, Py.index x l = Ok i ∧ l !! i = Some x.
Proof.
  induction l as [|y l IH]; intros Hin.
  - by apply not_elem_of_nil in Hin.
  - simpl. destruct (String.eqb_spec y x) as [->|Hne].
    + by exists 0%nat.
    + apply elem_of_cons in Hin as [->|Hin]; [done|].
      destruct (IH Hin) as (i & -> & Hi). by exists (S i).
Qed.

(** In a list without repetition it finds the one position. *)
Lemma index_unique (x : string) (l : list string) (i : nat) :
  NoDup l → l !! i = Some x → Py.index x l = Ok i.
Proof.
  intros Hnd Hi.
  destruct (index_found x l) as (j & Hj & Hlj).
  { apply list_elem_of_lookup. by exists i. }
  rewrite Hj. f_equal. by eapply NoDup_lookup.
Qed.

Lemma is_active_create_symbol_button symbol index is_active :
  is_active_button (create_symbol_button symbol index is_active) = is_active.
Proof. by destruct is_active. Qed.

(** Among the buttons of the appending loop the active ones are those
    whose index is [active_index]. *)
Lemma active_buttons_from (symbols : list string) (active_index : Z) :
  ∀ start : nat,
    length (filter (λ c, is_active_button c = true)
              (imap (λ k symbol,
                       create_symbol_button symbol (start + k)
                         (Z.of_nat (start + k) =? active_index)) symbols))
    = if bool_decide (Z.of_nat start <= active_index
                      < Z.of_nat start + Z.of_nat (length symbols))
      then 1%nat else 0%nat.
Proof.
  induction symbols as [|symbol symbols IH]; intros start.
  - simpl. by rewrite bool_decide_eq_false_2 by lia.
  - rewrite imap_cons, Nat.add_0_r.
    rewrite (imap_ext _ (λ k symbol0,
               create_symbol_button symbol0 (S start + k)
                 (Z.of_nat (S start + k) =? active_index)) symbols); cycle 1.
    { intros k s _. simpl. by rewrite Nat.add_succ_r. }
    rewrite filter_cons, is_active_create_symbol_button.
    specialize (IH (S start)). rewrite length_cons.
    destruct (Z.eqb_spec (Z.of_nat start) active_index) as [Heq|Hne].
    + rewrite decide_True by done. rewrite length_cons, IH.
      rewrite bool_decide_eq_false_2 by lia.
      by rewrite bool_decide_eq_true_2 by lia.
    + rewrite decide_False by done. rewrite IH.
      repeat case_bool_decide; (done || lia).
Qed.

(** Exactly one button of the loop is active when [active_index] is
    the position of a symbol. *)
Lemma symbol_buttons_one_active (symbols : list string) (active_index : Z) :
  0 <= active_index < len symbols →
  length (filter (λ c, is_active_button c = true) (symbol_buttons symbols active_index))
  = 1%nat.
Proof.
  intros Hin. unfold symbol_buttons, enumerate.
  rewrite buttons_loop, app_nil_l.
  rewrite (active_buttons_from symbols active_index 0).
  unfold len in Hin. by rewrite bool_decide_eq_true_2 by lia.
Qed.

Lemma container_buttons_container symbols buttons :
  container_buttons (button_container symbols buttons) = buttons.
Proof. unfold button_container. by destruct (1 <? len symbols). Qed.

(** The index the polling callback marks: within the list, and the
    result of [index] when the current symbol is a listed text. *)
Lemma pagination_render app :
  keys app ≠ [] →
  ∃ active_index,
    0 <= active_index < len (keys app) ∧
    update_report_symbol_pagination app
    = Ok (button_container (keys app) (symbol_buttons (keys app) active_index)) ∧
    (Py.truthy (current_symbol app) && bool_decide (Py.text (current_symbol app) ∈ keys app)
     = true →
     ∃ i, Py.index (Py.text (current_symbol app)) (keys app) = Ok i ∧
          active_index = Z.of_nat i) ∧
    (Py.truthy (current_symbol app) && bool_decide (Py.text (current_symbol app) ∈ keys app)
     = false → active_index = 0).
Proof.
  intros Hne. unfold update_report_symbol_pagination.
  rewrite (proj2 (has_symbols_keys app) Hne). simpl negb. cbv iota.
  assert (0 < len (keys app)) as Hpos.
  { unfold len. destruct (keys app); [done|simpl; lia]. }
  destruct (Py.truthy (current_symbol app) &&
            bool_decide (Py.text (current_symbol app) ∈ keys app)) eqn:Hcond.
  - apply andb_true_iff in Hcond as [_ Hin]. apply bool_decide_eq_true in Hin.
    destruct (index_found _ _ Hin) as (i & Hi & Hl).
    exists (Z.of_nat i). rewrite Hi. cbn [mbind result_bind].
    split; [|split; [done|split; [by exists i|done]]].
    apply lookup_lt_Some in Hl. unfold len. lia.
  - exists 0. cbn [mbind result_bind].
    split; [lia|]. split; [done|]. split; [done|done].
Qed.

(** X1. [update_report_symbol_pagination] never raises. With no
    symbols it answers the "No symbols available" block; otherwise it
    renders one button per symbol, in registry order, button [j]
    carrying the symbol and the index [j], all marked against one
    active index. *)
Theorem pagination_one_button_per_symbol app :
  ∃ c,
    update_report_symbol_pagination app = Ok c ∧
    (keys app = [] → c = Div [Text "No symbols available"] "text-muted text-center") ∧
    (keys app ≠ [] →
     length (container_buttons c) = length (keys app) ∧
     ∃ active_index,
       ∀ j symbol,
         keys app !! j = Some symbol →
         container_buttons c !! j
         = Some (create_symbol_button symbol j (Z.of_nat j =? active_index))).
Proof.
  destruct (decide (keys app = [])) as [Hnil|Hne].
  - eexists. split; [|split; [done|done]].
    unfold update_report_symbol_pagination.
    destruct (has_symbols app) eqn:Hs; [|done].
    apply has_symbols_keys in Hs. done.
  - destruct (pagination_render app Hne) as (active_index & _ & -> & _).
    eexists. split; [done|]. split; [done|]. intros _.
    rewrite container_buttons_container. split.
    + apply symbol_buttons_length.
    + exists active_index. intros j symbol Hj.
      by rewrite symbol_buttons_lookup, Hj.
Qed.

(** X2. Exactly one symbol button is rendered active, both by the
    polling callback on a non-empty registry and by the click handler
    whenever it returns a button set. *)
Theorem exactly_one_active_button :
  (∀ app c,
     keys app ≠ [] → update_report_symbol_pagination app = Ok c →
     length (filter (λ b, is_active_button b = true) (container_buttons c)) = 1%nat) ∧
  (∀ json_index app symbol_clicks triggered app' page page' c,
     handle_report_symbol_click json_index app symbol_clicks triggered
     = Ok (app', (page, page', Set_to c)) →
     length (filter (λ b, is_active_button b = true) (container_buttons c)) = 1%nat).
Proof.
  split.
  - intros app c Hne Hc.
    destruct (pagination_render app Hne) as (active_index & Hin & Hr & _).
    rewrite Hr in Hc. injection Hc as <-.
    rewrite container_buttons_container. by apply symbol_buttons_one_active.
  - intros json_index app symbol_clicks triggered app' page page' c.
    unfold handle_report_symbol_click.
    destruct (negb (any_clicks symbol_clicks) || _); [done|].
    destruct (Py.getitem triggered 0) as [button_id|]; [|done]. cbn [mbind result_bind].
    destruct (Py.contains "symbol-btn" button_id); [|done].
    destruct (Py.getitem (Py.split "." button_id) 0) as [id_part|]; [|done].
    cbn [mbind result_bind].
    destruct (json_index id_part) as [i|]; [|done]. cbn [mbind result_bind].
    destruct (Z.leb_spec 0 i); [|done].
    destruct (Z.ltb_spec i (len (keys app))); [|done]. simpl andb. cbv iota.
    destruct (Py.getitem (keys app) i) as [symbol|]; [|done]. cbn [mbind result_bind].
    intros [= <- <- <- <-].
    rewrite container_buttons_container. apply symbol_buttons_one_active. lia.
Qed.

(** ** The click handler, the poll and the pages together *)

Section ClickFacts.

Variable json_index : string -> result Z.

(** The result of a click on button [i] of the list. *)
Lemma handle_valid_click app symbol_clicks button_id rest id_part pieces i symbol :
  any_clicks symbol_clicks = true →
  Py.contains "symbol-btn" button_id = true →
  Py.split "." button_id = id_part :: pieces →
  json_index id_part = Ok i →
  0 <= i < len (keys app) →
  keys app !! Z.to_nat i = Some symbol →
  handle_report_symbol_click json_index app symbol_clicks (button_id :: rest)
  = Ok ({| symbol_states := symbol_states app; current_symbol := Some symbol |},
        (Set_to (i + 1), Set_to (i + 1),
         Set_to (button_container (keys app) (symbol_buttons (keys app) i)))).
Proof.
  intros Hany Hbtn Hsplit Hjson Hi Hsym.
  destruct (getitem_nonneg (keys app) i Hi) as (symbol' & Hsym' & Hget).
  assert (symbol' = symbol) as -> by congruence.
  unfold handle_report_symbol_click.
  rewrite Hany, bool_decide_eq_true_2 by done. simpl negb. cbv iota.
  rewrite getitem_head. cbn [mbind result_bind].
  rewrite Hbtn, Hsplit, getitem_head. cbn [mbind result_bind].
  rewrite Hjson. cbn [mbind result_bind].
  rewrite (proj2 (Z.leb_le 0 i)), (proj2 (Z.ltb_lt i _)) by lia.
  simpl andb. cbv iota. by rewrite Hget.
Qed.

(** Whatever the handler returns, it either changed nothing or went
    through every test of a click on a button of the list. *)
Lemma handle_returns app symbol_clicks triggered app' outs :
  handle_report_symbol_click json_index app symbol_clicks triggered = Ok (app', outs) →
  (app' = app ∧ outs = (no_update, no_update, no_update)) ∨
  (∃ button_id rest id_part pieces i symbol,
     any_clicks symbol_clicks = true ∧
     triggered = button_id :: rest ∧
     Py.contains "symbol-btn" button_id = true ∧
     Py.split "." button_id = id_part :: pieces ∧
     json_index id_part = Ok i ∧
     0 <= i < len (keys app) ∧
     keys app !! Z.to_nat i = Some symbol ∧
     app' = {| symbol_states := symbol_states app; current_symbol := Some symbol |} ∧
     outs = (Set_to (i + 1), Set_to (i + 1),
             Set_to (button_container (keys app) (symbol_buttons (keys app) i)))).
Proof.
  unfold handle_report_symbol_click.
  destruct (any_clicks symbol_clicks) eqn:Hany; simpl negb; simpl orb;
    [|intros [= <- <-]; by left].
  destruct triggered as [|button_id rest].
  { rewrite bool_decide_eq_false_2 by (intros H; by apply H).
    intros [= <- <-]. by left. }
  rewrite bool_decide_eq_true_2 by done. simpl negb. cbv iota.
  rewrite getitem_head. cbn [mbind result_bind].
  destruct (Py.contains "symbol-btn" button_id) eqn:Hbtn; [|intros [= <- <-]; by left].
  destruct (Py.split "." button_id) as [|id_part pieces] eqn:Hsplit; [done|].
  rewrite getitem_head. cbn [mbind result_bind].
  destruct (json_index id_part) as [i|] eqn:Hjson; [|done]. cbn [mbind result_bind].
  destruct (Z.leb_spec 0 i); [|intros [= <- <-]; by left].
  destruct (Z.ltb_spec i (len (keys app))); [|intros [= <- <-]; by left].
  simpl andb. cbv iota.
  destruct (getitem_nonneg (keys app) i) as (symbol & Hsym & ->); [lia|].
  cbn [mbind result_bind]. intros [= <- <-]. right.
  exists button_id, rest, id_part, pieces, i, symbol.
  repeat split; (done || lia).
Qed.

(** X5. When the click handler returns a page, it returns the same
    page for both pagination outputs, the page lies within the symbol
    list, and on that page all five page-consuming callbacks go on
    with the very symbol the handler stored as current symbol. *)
Theorem clicked_page_shows_clicked_symbol
    (get_state : AppState → string → option SymbolState)
    (render_researcher_debate render_risk_debate : string → string)
    (validate_reports_for_ui : gmap string string → gmap string string)
    app symbol_clicks triggered app' page page' c :
  handle_report_symbol_click json_index app symbol_clicks triggered
  = Ok (app', (Set_to page, page', c)) →
  ∃ symbol,
    current_symbol app' = Some symbol ∧
    page' = Set_to page ∧
    1 <= page <= len (keys app') ∧
    keys app' !! Z.to_nat (page - 1) = Some symbol ∧
    all_continue_with get_state render_researcher_debate render_risk_debate
      validate_reports_for_ui app' page symbol.
Proof.
  intros Hclick.
  destruct (handle_returns _ _ _ _ _ Hclick) as [[_ [=]]|Hvalid].
  destruct Hvalid as (button_id & rest & id_part & pieces & i & symbol &
                      _ & _ & _ & _ & _ & Hi & Hsym & -> & [= -> -> ->]).
  exists symbol. split; [done|]. split; [done|].
  change (keys {| symbol_states := symbol_states app; current_symbol := Some symbol |})
    with (keys app).
  split; [lia|].
  replace (i + 1 - 1) with i by lia. split; [done|].
  destruct (in_range_page get_state render_researcher_debate render_risk_debate
              validate_reports_for_ui
              {| symbol_states := symbol_states app; current_symbol := Some symbol |}
              (i + 1)) as (symbol' & Hsym' & Hcont).
  { change (keys {| symbol_states := symbol_states app; current_symbol := Some symbol |})
      with (keys app). lia. }
  assert (symbol' = symbol) as ->; [|done].
  revert Hsym'.
  change (keys {| symbol_states := symbol_states app; current_symbol := Some symbol |})
    with (keys app).
  replace (i + 1 - 1) with i by lia. congruence.
Qed.

(** X6. The click handler never changes [symbol_states]; the current
    symbol it leaves is the one it found or a symbol of the
    registry. *)
Theorem click_keeps_registry app symbol_clicks triggered app' outs :
  handle_report_symbol_click json_index app symbol_clicks triggered = Ok (app', outs) →
  symbol_states app' = symbol_states app ∧
  (current_symbol app' = current_symbol app ∨
   ∃ symbol, current_symbol app' = Some symbol ∧ symbol ∈ keys app).
Proof.
  intros Hclick.
  destruct (handle_returns _ _ _ _ _ Hclick) as [[-> _]|Hvalid].
  - split; [done|by left].
  - destruct Hvalid as (button_id & rest & id_part & pieces & i & symbol &
                        _ & _ & _ & _ & _ & _ & Hsym & -> & _).
    split; [done|]. right. exists symbol. split; [done|].
    apply list_elem_of_lookup. by eexists.
Qed.

(** X7. Handling the same click event again on the state the handler
    left gives the same state and the same three outputs. *)
Theorem click_twice app symbol_clicks triggered app' outs :
  handle_report_symbol_click json_index app symbol_clicks triggered = Ok (app', outs) →
  handle_report_symbol_click json_index app' symbol_clicks triggered = Ok (app', outs).
Proof.
  intros Hclick.
  destruct (handle_returns _ _ _ _ _ Hclick) as [[-> _]|Hvalid]; [done|].
  destruct Hvalid as (button_id & rest & id_part & pieces & i & symbol &
                      Hany & -> & Hbtn & Hsplit & Hjson & Hi & Hsym & -> & ->).
  by rewrite (handle_valid_click _ symbol_clicks button_id rest id_part pieces i symbol).
Qed.

(** X4. The button set the click handler returns at once is the one
    the polling callback renders from the state the handler left,
    when the symbols of the registry are distinct and the clicked
    symbol is not the empty text. *)
Theorem click_feedback_is_next_poll app symbol_clicks triggered app' page page' c :
  NoDup (keys app) →
  handle_report_symbol_click json_index app symbol_clicks triggered
  = Ok (app', (page, page', Set_to c)) →
  current_symbol app' ≠ Some "" →
  update_report_symbol_pagination app' = Ok c.
Proof.
  intros Hnd Hclick Hname.
  destruct (handle_returns _ _ _ _ _ Hclick) as [[_ [=]]|Hvalid].
  destruct Hvalid as (button_id & rest & id_part & pieces & i & symbol &
                      _ & _ & _ & _ & _ & Hi & Hsym & -> & [= -> -> ->]).
  simpl in Hname.
  unfold update_report_symbol_pagination.
  change (keys {| symbol_states := symbol_states app; current_symbol := Some symbol |})
    with (keys app).
  change (has_symbols
            {| symbol_states := symbol_states app; current_symbol := Some symbol |})
    with (has_symbols app).
  rewrite (proj2 (has_symbols_len app)) by lia. simpl negb. cbv iota.
  cbn [current_symbol]. change (Py.text (Some symbol)) with symbol.
  rewrite truthy_some by congruence.
  rewrite bool_decide_eq_true_2 by (apply list_elem_of_lookup; by eexists).
  simpl andb. cbv iota.
  rewrite (index_unique symbol (keys app) (Z.to_nat i) Hnd Hsym).
  cbn [mbind result_bind]. by rewrite Z2Nat.id by lia.
Qed.

End ClickFacts.

(** X3. The polling callback marks the button of the current symbol
    when that symbol is a non-empty text of a registry without
    repetition, and the first button when the current symbol is
    absent, empty or no longer registered. *)
Theorem pagination_marks_current_symbol app :
  (∀ i symbol,
     NoDup (keys app) → current_symbol app = Some symbol → symbol ≠ "" →
     keys app !! i = Some symbol →
     ∃ c, update_report_symbol_pagination app = Ok c ∧
          container_buttons c !! i = Some (create_symbol_button symbol i true)) ∧
  (∀ first,
     keys app !! 0%nat = Some first →
     Py.truthy (current_symbol app) = false ∨ Py.text (current_symbol app) ∉ keys app →
     ∃ c, update_report_symbol_pagination app = Ok c ∧
          container_buttons c !! 0%nat = Some (create_symbol_button first 0 true)).
Proof.
  split.
  - intros i symbol Hnd Hcur Hname Hi.
    assert (keys app ≠ []) as Hne by (intros Hnil; by rewrite Hnil in Hi).
    destruct (pagination_render app Hne) as (active_index & _ & -> & Hlisted & _).
    destruct Hlisted as (j & Hj & ->).
    { rewrite Hcur. change (Py.text (Some symbol)) with symbol.
      rewrite truthy_some by done.
      rewrite bool_decide_eq_true_2; [done|]. apply list_elem_of_lookup. by eexists. }
    rewrite Hcur in Hj. change (Py.text (Some symbol)) with symbol in Hj.
    rewrite (index_unique symbol (keys app) i Hnd Hi) in Hj. injection Hj as <-.
    eexists. split; [done|].
    rewrite container_buttons_container, symbol_buttons_lookup, Hi. simpl.
    by rewrite Z.eqb_refl.
  - intros first Hfirst Hnone.
    assert (keys app ≠ []) as Hne by (intros Hnil; by rewrite Hnil in Hfirst).
    destruct (pagination_render app Hne) as (active_index & _ & -> & _ & Hzero).
    rewrite Hzero; cycle 1.
    { destruct Hnone as [->|Hnot]; [done|].
      rewrite (bool_decide_eq_false_2 _ Hnot). apply andb_false_r. }
    eexists. split; [done|].
    by rewrite container_buttons_container, symbol_buttons_lookup, Hfirst.
Qed.

(** ** The tab router *)

(** Every answer of the table is one of the nine routed tabs. *)
Lemma tab_mapping_values nav tab :
  tab_mapping !! nav = Some tab → tab ∈ routed_tabs.
Proof.
  unfold tab_mapping. intros H%elem_of_list_to_map_2.
  unfold routed_tabs.
  repeat (apply elem_of_cons in H as [[= -> ->]|H]; [set_solver|]).
  by apply not_elem_of_nil in H.
Qed.

(** X8. [switch_tab] never raises and always answers one of nine tab
    identifiers; it never answers "macro-analysis", for which the
    table has no entry. *)
Theorem router_total args triggered :
  ∃ tab,
    switch_tab args triggered = Ok tab ∧
    tab ∈ routed_tabs ∧
    tab ≠ "macro-analysis".
Proof.
  assert (∀ tab, tab ∈ routed_tabs → tab ≠ "macro-analysis") as Hmacro.
  { intros tab H ->. unfold routed_tabs in H.
    repeat (apply elem_of_cons in H as [[=]|H]). by apply not_elem_of_nil in H. }
  assert (∃ tab, switch_tab args triggered = Ok tab ∧ tab ∈ routed_tabs)
    as (tab & Htab & Hin); [|by eauto].
  destruct triggered as [|prop_id rest].
  { exists "market-analysis". split; [done|]. unfold routed_tabs. set_solver. }
  destruct (split_pieces "." prop_id) as (pieces & latest & Hsplit).
  destruct (pieces ++ [latest]) as [|trigger_id more] eqn:Hpieces.
  { by destruct pieces. }
  rewrite (switch_tab_lookup args prop_id rest trigger_id more Hsplit).
  eexists. split; [done|]. unfold Py.get_default.
  destruct (tab_mapping !! trigger_id) as [tab|] eqn:Htab.
  - by eapply tab_mapping_values.
  - unfold routed_tabs. set_solver.
Qed.

(** X9. For every entry of the router's table, a first trigger made
    of the navigation identifier, a dot and any property name selects
    the entry's tab, whatever the click counts and the later
    triggers. *)
Theorem router_follows_table nav tab property args rest :
  tab_mapping !! nav = Some tab →
  switch_tab args ((nav +:+ "." +:+ property) :: rest) = Ok tab.
Proof.
  unfold tab_mapping at 1. intros H%elem_of_list_to_map_2.
  repeat (apply elem_of_cons in H as [[= -> ->]|H];
          [erewrite switch_tab_lookup;
           [|by cbv [String.append Py.split Ascii.eqb Bool.eqb]];
           by vm_compute|]).
  by apply not_elem_of_nil in H.
Qed.

(** ** The decision summary *)

Lemma string_app_cons a s t : String a s +:+ t = String a (s +:+ t).
Proof. reflexivity. Qed.

Lemma string_app_assoc s t u : (s +:+ t) +:+ u = s +:+ t +:+ u.
Proof.
  induction s as [|a s IH]; [done|].
  by rewrite !string_app_cons, IH.
Qed.

(** Joining the pieces of a split gives the text back. *)
Lemma join_split c s : Py.join (String c "") (Py.split c s) = s.
Proof.
  unfold Py.join. induction s as [|a s IH]; [done|].
  simpl Py.split. destruct (split_pieces c s) as (pieces & latest & Hsplit).
  destruct (Py.split c s) as [|piece rest] eqn:Hs.
  { by destruct pieces. }
  destruct (Ascii.eqb_spec a c) as [->|Hne].
  - change (String.concat (String c "") ("" :: piece :: rest))
      with ("" +:+ String c "" +:+ String.concat (String c "") (piece :: rest)).
    by rewrite IH.
  - destruct rest as [|piece' rest].
    + simpl in *. by rewrite IH.
    + change (String.concat (String c "") (String a piece :: piece' :: rest))
        with (String a piece +:+ String c "" +:+
              String.concat (String c "") (piece' :: rest)).
      change (String.concat (String c "") (piece :: piece' :: rest))
        with (piece +:+ String c "" +:+ String.concat (String c "") (piece' :: rest))
        in IH.
      by rewrite string_app_cons, IH.
Qed.

(** No piece of a split holds the separator: splitting a piece again
    gives the piece alone. *)
Lemma split_pieces_whole c s : Forall (λ piece, Py.split c piece = [piece]) (Py.split c s).
Proof.
  induction s as [|a s IH]; simpl.
  - by constructor.
  - destruct (Ascii.eqb a c) eqn:Hac.
    + by constructor.
    + destruct (Py.split c s) as [|piece rest]; [by constructor; simpl; rewrite ?Hac|].
      inversion IH as [|?? Hpiece Hrest]; subst.
      constructor; [|done]. simpl. by rewrite Hac, Hpiece.
Qed.

(** The text after the last separator is a suffix of the whole. *)
Lemma join_last sep pieces latest :
  pieces ≠ [] →
  Py.join sep (pieces ++ [latest]) = Py.join sep pieces +:+ sep +:+ latest.
Proof.
  unfold Py.join. induction pieces as [|piece pieces IH]; [done|]. intros _.
  destruct pieces as [|piece' pieces]; [done|].
  change (String.concat sep ((piece :: piece' :: pieces) ++ [latest]))
    with (piece +:+ sep +:+ String.concat sep ((piece' :: pieces) ++ [latest])).
  rewrite IH by done.
  change (String.concat sep (piece :: piece' :: pieces))
    with (piece +:+ sep +:+ String.concat sep (piece' :: pieces)).
  by rewrite !string_app_assoc.
Qed.

Section DecisionFacts.

Variable get_state : AppState -> string -> option SymbolState.

(** X12. [risk_debate_latest] never raises; its result holds no
    newline and is the end of the risk-debate history: the whole
    history, or what follows its last newline (the empty text when
    the history ends in a newline or is missing). *)
Theorem latest_risk_line state :
  ∃ latest,
    risk_debate_latest state = Ok latest ∧
    Py.split "010" latest = [latest] ∧
    (Py.text (risk_history state) = latest ∨
     ∃ before, Py.text (risk_history state) = before +:+ Py.LF +:+ latest).
Proof.
  destruct (risk_debate_latest_last state) as (pieces & latest & Hsplit & Hlatest).
  exists latest. split; [done|].
  pose proof (split_pieces_whole "010" (Py.text (risk_history state))) as Hwhole.
  rewrite Hsplit in Hwhole. apply Forall_app in Hwhole as [_ Hwhole].
  inversion Hwhole as [|?? Hw _]; subst. split; [exact Hw|].
  pose proof (join_split "010" (Py.text (risk_history state))) as Hjoin.
  rewrite Hsplit in Hjoin.
  destruct pieces as [|piece pieces].
  - left. by rewrite <- Hjoin.
  - right. exists (Py.join Py.LF (piece :: pieces)).
    rewrite <- Hjoin at 1. by apply join_last.
Qed.

(** X13. For a page that is absent or not negative the current-symbol
    label always returns: the empty label, "Invalid page", or the
    chart sign followed by the symbol of the page. For a page within
    the list whose symbol has no state, the eight tabs and the
    decision summary are "No data for this symbol.". *)
Theorem label_returns_and_missing_state
    (validate_reports_for_ui : gmap string string → gmap string string)
    app active_page :
  ((∀ p, active_page = Some p → 0 <= p) →
   update_report_display_text app active_page = Ok "" ∨
   update_report_display_text app active_page = Ok "Invalid page" ∨
   ∃ p symbol,
     active_page = Some p ∧ 1 <= p <= len (keys app) ∧
     keys app !! Z.to_nat (p - 1) = Some symbol ∧
     update_report_display_text app active_page = Ok ("📊 " +:+ symbol)) ∧
  (∀ p symbol,
     active_page = Some p → 1 <= p <= len (keys app) →
     keys app !! Z.to_nat (p - 1) = Some symbol → get_state app symbol = None →
     update_tabs_content get_state validate_reports_for_ui app active_page
     = Ok (replicate 8 (Markdown "No data for this symbol.")) ∧
     update_decision_summary get_state app active_page = Ok "No data for this symbol.").
Proof.
  split.
  - intros Hnonneg.
    assert (0 <= len (keys app)) as Hlen by (unfold len; lia).
    destruct active_page as [p|]; [|by left].
    specialize (Hnonneg p eq_refl).
    destruct (decide (1 <= p <= len (keys app))) as [Hin|Hout].
    + destruct (in_range_page get_state id id id app p Hin)
        as (symbol & Hsym & _ & _ & _ & _ & Ht).
      right. right. by exists p, symbol.
    + unfold update_report_display_text.
      destruct (negb (has_symbols app) || (p =? 0)) eqn:Hguard; [by left|].
      apply orb_false_iff in Hguard as [Hs Hp0].
      apply negb_false_iff, has_symbols_len in Hs. apply Z.eqb_neq in Hp0.
      rewrite (proj2 (Z.ltb_lt (len (keys app)) p)) by lia. right. by left.
  - intros p symbol -> Hin Hsym Hnone.
    destruct (in_range_page get_state id id validate_reports_for_ui app p Hin)
      as (symbol' & Hsym' & Htabs & Hsummary & _).
    assert (symbol' = symbol) as -> by congruence.
    rewrite Htabs, Hsummary. unfold tabs_of_symbol, decision_of_symbol.
    by rewrite Hnone.
Qed.

(** X10. When the analysis is flagged complete, a final report is
    present and the structured results are a non-empty dictionary,
    the summary is exactly the "Final Decision" heading with the
    ticker, the "Trade Action" line with the decision of the results
    and the "Date" line with their date ("No decision" and "N/A" for
    a missing key). *)
Theorem structured_results_shown app p state results :
  page_state get_state app p state →
  flag_set (analysis_complete state) = true →
  current_reports state !! "final_trade_decision" ≠ None →
  analysis_results state = Some results → results ≠ ∅ →
  update_decision_summary get_state app (Some p)
  = Ok ("## Final Decision for " +:+ ticker_symbol state +:+ Py.LF +:+ Py.LF +:+
        "**Trade Action:** " +:+ default "No decision" (results !! "decision") +:+
        Py.LF +:+ Py.LF +:+
        "**Date:** " +:+ default "N/A" (results !! "date")).
Proof.
  intros Hpage Hflag Hfinal Hres Hne.
  rewrite (decision_page_state _ _ _ _ Hpage). unfold decision_of_state.
  rewrite Hflag, (bool_decide_eq_true_2 _ Hfinal). simpl andb. cbv iota.
  unfold final_decision_text, has_results. rewrite Hres.
  rewrite (bool_decide_eq_false_2 _ Hne). simpl negb. cbv iota.
  unfold Py.get_default. simpl default.
  by destruct (results !! "decision"), (results !! "date").
Qed.

Lemma optional_nil (item : string) (b : bool) :
  (if b then [item] else []) = [] ↔ b = false.
Proof. by destruct b. Qed.

(** Nothing is listed exactly when the final report is absent and the
    other eight artifacts are absent or empty. *)
Lemma available_reports_nil state :
  available_reports state = [] ↔
  current_reports state !! "final_trade_decision" = None ∧
  Py.truthy (current_reports state !! "market_report") = false ∧
  Py.truthy (current_reports state !! "sentiment_report") = false ∧
  Py.truthy (current_reports state !! "news_report") = false ∧
  Py.truthy (current_reports state !! "fundamentals_report") = false ∧
  Py.truthy (current_reports state !! "macro_report") = false ∧
  Py.truthy (current_reports state !! "research_manager_report") = false ∧
  Py.truthy (current_reports state !! "trader_investment_plan") = false ∧
  Py.truthy (risk_history state) = false.
Proof.
  unfold available_reports.
  rewrite !app_nil, !optional_nil, bool_decide_eq_false.
  destruct (current_reports state !! "final_trade_decision"); intuition (done || congruence).
Qed.

(** X11. For a symbol with state the summary is "Analysis not
    complete yet." exactly when the final report is absent and the
    other eight tracked artifacts are absent or empty, whatever the
    [analysis_complete] flag. *)
Theorem not_started_message app p state :
  page_state get_state app p state →
  (update_decision_summary get_state app (Some p) = Ok "Analysis not complete yet." ↔
   current_reports state !! "final_trade_decision" = None ∧
   Py.truthy (current_reports state !! "market_report") = false ∧
   Py.truthy (current_reports state !! "sentiment_report") = false ∧
   Py.truthy (current_reports state !! "news_report") = false ∧
   Py.truthy (current_reports state !! "fundamentals_report") = false ∧
   Py.truthy (current_reports state !! "macro_report") = false ∧
   Py.truthy (current_reports state !! "research_manager_report") = false ∧
   Py.truthy (current_reports state !! "trader_investment_plan") = false ∧
   Py.truthy (risk_history state) = false).
Proof.
  intros Hpage. rewrite (decision_page_state _ _ _ _ Hpage).
  rewrite <- available_reports_nil. unfold decision_of_state. split.
  - destruct (flag_set _ && _).
    { intros [= Heq]. unfold final_decision_text in Heq.
      destruct (has_results _);
        apply (f_equal (String.get 0)) in Heq; vm_compute in Heq; discriminate. }
    destruct (decide (available_reports state = [])) as [|Havail]; [done|].
    destruct (partial_summary_shape state Havail) as (pieces & latest & _ & ->).
    intros Heq.
    apply (f_equal (λ r, match r with Ok out => String.get 0 out | Raise _ => None end))
      in Heq.
    vm_compute in Heq. discriminate.
  - intros Hnil.
    assert (current_reports state !! "final_trade_decision" = None) as Hfinal.
    { by apply available_reports_nil in Hnil as [? _]. }
    rewrite Hfinal, bool_decide_eq_false_2 by (intros H; by apply H).
    rewrite andb_false_r. unfold partial_summary_text.
    rewrite Hnil. by rewrite bool_decide_eq_false_2 by (intros H; by apply H).
Qed.

End DecisionFacts.

(** X14. With an empty registry, or a page that is absent or 0, each
    page-consuming callback answers with its own placeholder and looks
    at nothing else. *)
Theorem no_symbols_or_no_page
    (get_state : AppState → string → option SymbolState)
    (render_researcher_debate render_risk_debate : string → string)
    (validate_reports_for_ui : gmap string string → gmap string string)
    app active_page :
  keys app = [] ∨ active_page = None ∨ active_page = Some 0 →
  update_tabs_content get_state validate_reports_for_ui app active_page
  = Ok (replicate 8 (Markdown "No analysis available yet.")) ∧
  update_decision_summary get_state app active_page = Ok "Analysis not complete yet." ∧
  update_researcher_debate render_researcher_debate app active_page
  = Ok (Markdown "No researcher debate available yet.") ∧
  update_risk_debate render_risk_debate app active_page
  = Ok (Markdown "No risk debate available yet.") ∧
  update_report_display_text app active_page = Ok "".
Proof.
  intros Hcase.
  unfold update_tabs_content, update_decision_summary, update_researcher_debate,
    update_risk_debate, update_report_display_text.
  destruct active_page as [p|]; [|done].
  assert (negb (has_symbols app) || (p =? 0) = true) as ->; [|done].
  destruct Hcase as [Hnil|[[=]|[= ->]]].
  - destruct (has_symbols app) eqn:Hs; [|done].
    by apply has_symbols_keys in Hs.
  - apply orb_true_r.
Qed.

(** ** The report tabs *)

Section TabFacts.

Variable get_state : AppState -> string -> option SymbolState.

Ltac map_get :=
  unfold Py.get_default; cbn [list_to_map foldr uncurry fst snd];
  repeat (rewrite lookup_insert_eq || rewrite lookup_insert_ne by done).

(** A round of the loop raises nothing but [KeyError]. *)
Lemma validated_entry_raises validate report_type status content e :
  validated_entry validate report_type status content = Raise e → e = KeyError.
Proof.
  unfold validated_entry.
  destruct (Py.eq_str status "completed" && Py.truthy content); [done|].
  destruct (Py.eq_str status "in_progress"); [done|].
  destruct (Py.eq_str status "pending"); [done|].
  destruct (Py.truthy content); [|done].
  unfold Py.subscript. destruct (_ !! _); [done|]. by intros [= <-].
Qed.

(** The loop stops with [KeyError] as soon as one round raises. *)
Lemma validate_loop_raises validate items status_map :
  ∀ validated,
    (∃ report_type content,
       (report_type, content) ∈ items ∧
       validated_entry validate report_type
         (Py.get_default status_map report_type None) content = Raise KeyError) →
    validate_loop validate items status_map validated = Raise KeyError.
Proof.
  induction items as [|[report_type content] items IH];
    intros validated (rt & c & Hin & Hraise).
  - by apply not_elem_of_nil in Hin.
  - simpl.
    destruct (validated_entry validate report_type _ content) as [text|e] eqn:Hentry.
    + cbn [mbind result_bind]. apply IH.
      apply elem_of_cons in Hin as [[= -> ->]|Hin]; [congruence|].
      by exists rt, c.
    + cbn [mbind result_bind]. f_equal. by eapply validated_entry_raises.
Qed.

(** The loop only reads the validator through its rounds. *)
Lemma validate_loop_ext validate validate' items status_map :
  ∀ validated,
    (∀ report_type content,
       (report_type, content) ∈ items →
       validated_entry validate report_type
         (Py.get_default status_map report_type None) content
       = validated_entry validate' report_type
           (Py.get_default status_map report_type None) content) →
    validate_loop validate items status_map validated
    = validate_loop validate' items status_map validated.
Proof.
  induction items as [|[report_type content] items IH]; intros validated Hext; [done|].
  simpl. rewrite (Hext report_type content) by apply list_elem_of_here.
  destruct (validated_entry validate' report_type _ content); [|done].
  cbn [mbind result_bind]. apply IH.
  intros rt c Hin. apply Hext. by apply list_elem_of_further.
Qed.

(** What the loop of [tabs_of_state] runs over, slot by slot. *)
Lemma tabs_loop_slot validate state i report_type analyst :
  analyst_slots !! i = Some (report_type, analyst) →
  let items :=
    [("market_report", current_reports state !! "market_report");
     ("sentiment_report", current_reports state !! "sentiment_report");
     ("news_report", current_reports state !! "news_report");
     ("fundamentals_report", current_reports state !! "fundamentals_report");
     ("macro_report", current_reports state !! "macro_report")] in
  let status_map : gmap string (option string) :=
    list_to_map
      [("market_report", agent_statuses state !! "Market Analyst");
       ("sentiment_report", agent_statuses state !! "Social Analyst");
       ("news_report", agent_statuses state !! "News Analyst");
       ("fundamentals_report", agent_statuses state !! "Fundamentals Analyst");
       ("macro_report", agent_statuses state !! "Macro Analyst")] in
  (report_type, current_reports state !! report_type) ∈ items ∧
  validated_entry validate report_type (Py.get_default status_map report_type None)
    (current_reports state !! report_type)
  = slot_text validate state (report_type, analyst).
Proof.
  intros Hslot items status_map. unfold slot_text, items, status_map.
  destruct i as [|[|[|[|[|i]]]]]; simpl in Hslot; simplify_eq;
    (split; [set_solver|]); simpl fst; simpl snd; by map_get.
Qed.

(** Every slot of the loop is one of the five analyst slots. *)
Lemma tabs_loop_items state report_type content :
  (report_type, content) ∈
    [("market_report", current_reports state !! "market_report");
     ("sentiment_report", current_reports state !! "sentiment_report");
     ("news_report", current_reports state !! "news_report");
     ("fundamentals_report", current_reports state !! "fundamentals_report");
     ("macro_report", current_reports state !! "macro_report")] →
  content = current_reports state !! report_type ∧
  ∃ i analyst, analyst_slots !! i = Some (report_type, analyst).
Proof.
  intros H.
  repeat (apply elem_of_cons in H as [[= -> ->]|H];
          [split; [done|];
           first [by exists 0%nat, "Market Analyst"
                 |by exists 1%nat, "Social Analyst"
                 |by exists 2%nat, "News Analyst"
                 |by exists 3%nat, "Fundamentals Analyst"
                 |by exists 4%nat, "Macro Analyst"]|]).
  by apply not_elem_of_nil in H.
Qed.

(** X15. When an analyst without a recognised status has a non-empty
    report and the validator's answer lacks that slot,
    [update_tabs_content] raises [KeyError]: no tab is returned, the
    other slots included. *)
Theorem dropped_slot_raises validate app p state i report_type analyst c :
  page_state get_state app p state →
  analyst_slots !! i = Some (report_type, analyst) →
  agent_statuses state !! analyst ≠ Some "completed" →
  agent_statuses state !! analyst ≠ Some "in_progress" →
  agent_statuses state !! analyst ≠ Some "pending" →
  current_reports state !! report_type = Some c → c ≠ "" →
  validate {[report_type := c]} !! report_type = None →
  update_tabs_content get_state validate app (Some p) = Raise KeyError.
Proof.
  intros Hpage Hslot H1 H2 H3 Hc Hne Hdrop.
  rewrite (tabs_page_state _ _ _ _ _ Hpage). unfold tabs_of_state.
  destruct (tabs_loop_slot validate state i report_type analyst Hslot) as [Hin Hentry].
  rewrite validate_loop_raises; [done|].
  exists report_type, (current_reports state !! report_type).
  split; [done|]. rewrite Hentry. unfold slot_text, validated_entry. simpl fst. simpl snd.
  apply eq_str_false in H1, H2, H3. rewrite H1, H2, H3, Hc, truthy_some by done.
  simpl. unfold Py.subscript. by rewrite Hdrop.
Qed.

(** X16. When every analyst slot is empty or has one of the statuses
    [completed], [in_progress], [pending], the eight tabs do not
    depend on the validator. *)
Theorem validator_not_consulted validate validate' state :
  (∀ i report_type analyst,
     analyst_slots !! i = Some (report_type, analyst) →
     Py.truthy (current_reports state !! report_type) = false ∨
     agent_statuses state !! analyst = Some "completed" ∨
     agent_statuses state !! analyst = Some "in_progress" ∨
     agent_statuses state !! analyst = Some "pending") →
  tabs_of_state validate state = tabs_of_state validate' state.
Proof.
  intros Hknown. unfold tabs_of_state.
  erewrite validate_loop_ext; [reflexivity|].
  intros report_type content Hin.
  destruct (tabs_loop_items state report_type content Hin) as (-> & i & analyst & Hslot).
  destruct (tabs_loop_slot validate state i report_type analyst Hslot) as [_ ->].
  destruct (tabs_loop_slot validate' state i report_type analyst Hslot) as [_ ->].
  unfold slot_text, validated_entry. simpl fst. simpl snd.
  destruct (Hknown i report_type analyst Hslot) as [Hc|[Hs|[Hs|Hs]]].
  - by rewrite Hc.
  - rewrite Hs. simpl Py.eq_str. cbv iota.
    by destruct (Py.truthy (current_reports state !! report_type)).
  - by rewrite Hs.
  - by rewrite Hs.
Qed.

(** What is rendered is never blank, the default message replacing a
    blank text. *)
Lemma create_markdown_content_not_blank content message :
  Py.is_blank message = false →
  ∃ text, create_markdown_content content message = Markdown text ∧
          Py.is_blank text = false.
Proof.
  intros Hmessage. unfold create_markdown_content.
  destruct (negb (Py.nonempty content) || Py.is_blank content) eqn:Hblank.
  - by exists message.
  - exists content. split; [done|]. by apply orb_false_iff in Hblank as [_ ?].
Qed.

(** The outputs of [tabs_of_state], when there are any. *)
Lemma tabs_of_state_returns validate state outs :
  tabs_of_state validate state = Ok outs →
  ∃ market sentiment news fundamentals macro,
    outs = (λ text, create_markdown_content text default_message) <$>
           [market; sentiment; news; fundamentals; macro;
            Py.or_default (current_reports state !! "research_manager_report")
              "No research manager decision available yet.";
            Py.or_default (current_reports state !! "trader_investment_plan")
              "No trader report available yet.";
            Py.or_default (current_reports state !! "final_trade_decision")
              "No final decision available yet."].
Proof.
  unfold tabs_of_state.
  destruct (validate_loop _ _ _ _) as [validated|]; [|done].
  cbn [mbind result_bind]. intros [= <-]. by eexists _, _, _, _, _.
Qed.

(** X17. Whatever [update_tabs_content] returns, each output is a
    markdown panel whose text is not blank. *)
Theorem panels_never_blank validate app active_page outs :
  update_tabs_content get_state validate app active_page = Ok outs →
  Forall (λ c, ∃ text, c = Markdown text ∧ Py.is_blank text = false) outs.
Proof.
  assert (∀ message,
            Py.is_blank message = false →
            Forall (λ c, ∃ text, c = Markdown text ∧ Py.is_blank text = false)
              (replicate 8 (create_markdown_content "" message))) as Hearly.
  { intros message Hmessage. apply Forall_replicate. by exists message. }
  unfold update_tabs_content.
  destruct active_page as [p|]; [|intros [= <-]; by apply Hearly].
  destruct (negb (has_symbols app) || (p =? 0)); [intros [= <-]; by apply Hearly|].
  destruct (len (keys app) <? p); [intros [= <-]; by apply Hearly|].
  destruct (Py.getitem (keys app) (p - 1)) as [symbol|]; [|done].
  cbn [mbind result_bind]. unfold tabs_of_symbol.
  destruct (get_state app symbol) as [state|]; [|intros [= <-]; by apply Hearly].
  intros (market & sentiment & news & fundamentals & macro & ->)%tabs_of_state_returns.
  repeat (apply Forall_cons; split; [by apply create_markdown_content_not_blank|]).
  apply Forall_nil_2.
Qed.

(** X18. For a symbol with state, whenever [update_tabs_content]
    returns, it returns eight outputs of which the last three show
    the research manager report, the trader plan and the final
    decision: the fixed "No ... available yet." text of the slot when
    the report is absent or empty, the report as it is when it is not
    blank, and "No content available yet." when it is white space
    only; the agent statuses and the validator play no part. *)
Theorem research_team_slots validate app p state outs :
  page_state get_state app p state →
  update_tabs_content get_state validate app (Some p) = Ok outs →
  length outs = 8%nat ∧
  ∀ k key fallback,
    (k, key, fallback) ∈
      [(5%nat, "research_manager_report", "No research manager decision available yet.");
       (6%nat, "trader_investment_plan", "No trader report available yet.");
       (7%nat, "final_trade_decision", "No final decision available yet.")] →
    (Py.truthy (current_reports state !! key) = false →
     outs !! k = Some (Markdown fallback)) ∧
    (∀ c, current_reports state !! key = Some c → c ≠ "" →
          outs !! k
          = Some (Markdown (if Py.is_blank c then "No content available yet." else c))).
Proof.
  intros Hpage. rewrite (tabs_page_state _ _ _ _ _ Hpage).
  intros (market & sentiment & news & fundamentals & macro & ->)%tabs_of_state_returns.
  split; [done|].
  intros k key fallback Hslot.
  repeat (apply elem_of_cons in Hslot as [[= -> -> ->]|Hslot];
          [split;
           [intros Hnone; simpl; f_equal;
            by destruct (current_reports state !! _) as [[|??]|]
           |intros c -> Hc; simpl; f_equal;
            rewrite create_markdown_content_default;
            by destruct c]|]).
  by apply not_elem_of_nil in Hslot.
Qed.

End TabFacts.

(** ** The further properties at the sample states *)

Lemma sample_keys_distinct : NoDup (keys Sample.three_symbols).
Proof. apply (bool_decide_unpack _). by vm_compute. Defined.

Lemma sample_second_click :
  handle_report_symbol_click Sample.json_index Sample.three_symbols
    Further.second_click Further.second_trigger
  = Ok (Further.after_click,
        (Set_to 2, Set_to 2,
         Set_to (button_container (keys Sample.three_symbols)
                   (symbol_buttons (keys Sample.three_symbols) 1)))).
Proof. reflexivity. Defined.

Lemma sample_page_tsla : page_state Sample.get_state Further.two_symbols 1 Further.tsla.
Proof.
  split; [vm_compute; split; discriminate|].
  exists "TSLA". split; reflexivity.
Defined.

Lemma sample_page_amzn : page_state Sample.get_state Further.two_symbols 2 Further.amzn.
Proof.
  split; [vm_compute; split; discriminate|].
  exists "AMZN". split; reflexivity.
Defined.

Lemma pagination_one_button_per_symbol_witness :
  ∃ c, update_report_symbol_pagination Sample.three_symbols = Ok c ∧
       length (container_buttons c) = length (keys Sample.three_symbols).
Proof.
  destruct (pagination_one_button_per_symbol Sample.three_symbols)
    as (c & Hc & _ & Hbuttons).
  exists c. split; [exact Hc|].
  destruct Hbuttons as [Hlen _]; [discriminate|exact Hlen].
Defined.

Lemma exactly_one_active_button_witness :
  length (filter (λ b, is_active_button b = true)
            (container_buttons
               (button_container (keys Sample.three_symbols)
                  (symbol_buttons (keys Sample.three_symbols) 0)))) = 1%nat.
Proof.
  apply (proj1 exactly_one_active_button Sample.three_symbols).
  - discriminate.
  - reflexivity.
Defined.

Lemma pagination_marks_current_symbol_witness :
  ∃ c, update_report_symbol_pagination Sample.three_symbols = Ok c ∧
       container_buttons c !! 0%nat = Some (create_symbol_button "AAPL" 0 true).
Proof.
  apply (proj1 (pagination_marks_current_symbol Sample.three_symbols) 0%nat "AAPL").
  - exact sample_keys_distinct.
  - reflexivity.
  - discriminate.
  - reflexivity.
Defined.

Lemma click_feedback_is_next_poll_witness :
  update_report_symbol_pagination Further.after_click
  = Ok (button_container (keys Sample.three_symbols)
          (symbol_buttons (keys Sample.three_symbols) 1)).
Proof.
  apply (click_feedback_is_next_poll Sample.json_index Sample.three_symbols
           Further.second_click Further.second_trigger Further.after_click
           (Set_to 2) (Set_to 2)).
  - exact sample_keys_distinct.
  - exact sample_second_click.
  - discriminate.
Defined.

Lemma clicked_page_shows_clicked_symbol_witness :
  ∃ symbol,
    current_symbol Further.after_click = Some symbol ∧
    Set_to 2 = Set_to 2 ∧
    1 <= 2 <= len (keys Further.after_click) ∧
    keys Further.after_click !! Z.to_nat (2 - 1) = Some symbol ∧
    all_continue_with Sample.get_state Sample.render Sample.render Sample.validate
      Further.after_click 2 symbol.
Proof.
  apply (clicked_page_shows_clicked_symbol Sample.json_index Sample.get_state
           Sample.render Sample.render Sample.validate Sample.three_symbols
           Further.second_click Further.second_trigger Further.after_click 2 (Set_to 2)
           (Set_to (button_container (keys Sample.three_symbols)
                      (symbol_buttons (keys Sample.three_symbols) 1)))).
  exact sample_second_click.
Defined.

Lemma click_keeps_registry_witness :
  symbol_states Further.after_click = symbol_states Sample.three_symbols ∧
  (current_symbol Further.after_click = current_symbol Sample.three_symbols ∨
   ∃ symbol, current_symbol Further.after_click = Some symbol ∧
             symbol ∈ keys Sample.three_symbols).
Proof.
  apply (click_keeps_registry Sample.json_index Sample.three_symbols
           Further.second_click Further.second_trigger Further.after_click
           (Set_to 2, Set_to 2,
            Set_to (button_container (keys Sample.three_symbols)
                      (symbol_buttons (keys Sample.three_symbols) 1)))).
  exact sample_second_click.
Defined.

Lemma click_twice_witness :
  handle_report_symbol_click Sample.json_index Further.after_click
    Further.second_click Further.second_trigger
  = Ok (Further.after_click,
        (Set_to 2, Set_to 2,
         Set_to (button_container (keys Sample.three_symbols)
                   (symbol_buttons (keys Sample.three_symbols) 1)))).
Proof.
  apply (click_twice Sample.json_index Sample.three_symbols).
  exact sample_second_click.
Defined.

Lemma router_follows_table_witness :
  switch_tab [] ["nav-trader.n_clicks"; "nav-final.n_clicks"] = Ok "trader-plan".
Proof.
  apply (router_follows_table "nav-trader" "trader-plan" "n_clicks" [] ["nav-final.n_clicks"]).
  reflexivity.
Defined.

Lemma label_returns_and_missing_state_witness :
  (update_report_display_text Sample.three_symbols (Some 2) = Ok "" ∨
   update_report_display_text Sample.three_symbols (Some 2) = Ok "Invalid page" ∨
   ∃ p symbol,
     Some 2 = Some p ∧ 1 <= p <= len (keys Sample.three_symbols) ∧
     keys Sample.three_symbols !! Z.to_nat (p - 1) = Some symbol ∧
     update_report_display_text Sample.three_symbols (Some 2) = Ok ("📊 " +:+ symbol)) ∧
  update_tabs_content Further.no_state Sample.validate Sample.three_symbols (Some 2)
  = Ok (replicate 8 (Markdown "No data for this symbol.")) ∧
  update_decision_summary Further.no_state Sample.three_symbols (Some 2)
  = Ok "No data for this symbol.".
Proof.
  split.
  - apply (proj1 (label_returns_and_missing_state Sample.get_state Sample.validate
                    Sample.three_symbols (Some 2))).
    intros p Hp. injection Hp as <-. vm_compute. discriminate.
  - apply (proj2 (label_returns_and_missing_state Further.no_state Sample.validate
                    Sample.three_symbols (Some 2)) 2 "MSFT").
    + reflexivity.
    + vm_compute. split; discriminate.
    + reflexivity.
    + reflexivity.
Defined.

Lemma structured_results_shown_witness :
  update_decision_summary Sample.get_state Further.two_symbols (Some 1)
  = Ok ("## Final Decision for " +:+ ticker_symbol Further.tsla +:+ Py.LF +:+ Py.LF +:+
        "**Trade Action:** " +:+
        default "No decision"
          (({[ "decision" := "BUY"; "date" := "2024-01-01" ]} : gmap string string)
             !! "decision") +:+
        Py.LF +:+ Py.LF +:+
        "**Date:** " +:+
        default "N/A"
          (({[ "decision" := "BUY"; "date" := "2024-01-01" ]} : gmap string string)
             !! "date")).
Proof.
  apply (structured_results_shown Sample.get_state Further.two_symbols 1 Further.tsla).
  - exact sample_page_tsla.
  - reflexivity.
  - discriminate.
  - reflexivity.
  - intros Hempty.
    apply (f_equal (λ m : gmap string string, m !! "date")) in Hempty.
    vm_compute in Hempty. discriminate.
Defined.

Lemma not_started_message_witness :
  update_decision_summary Sample.get_state Further.two_symbols (Some 2)
  = Ok "Analysis not complete yet.".
Proof.
  apply (not_started_message Sample.get_state Further.two_symbols 2 Further.amzn).
  - exact sample_page_amzn.
  - repeat split; reflexivity.
Defined.

Lemma no_symbols_or_no_page_witness :
  update_tabs_content Sample.get_state Sample.validate Sample.no_symbols (Some 3)
  = Ok (replicate 8 (Markdown "No analysis available yet.")) ∧
  update_decision_summary Sample.get_state Sample.no_symbols (Some 3)
  = Ok "Analysis not complete yet." ∧
  update_researcher_debate Sample.render Sample.no_symbols (Some 3)
  = Ok (Markdown "No researcher debate available yet.") ∧
  update_risk_debate Sample.render Sample.no_symbols (Some 3)
  = Ok (Markdown "No risk debate available yet.") ∧
  update_report_display_text Sample.no_symbols (Some 3) = Ok "".
Proof.
  apply no_symbols_or_no_page. left. reflexivity.
Defined.

Lemma dropped_slot_raises_witness :
  update_tabs_content Sample.get_state Further.forgetful Sample.three_symbols (Some 1)
  = Raise KeyError.
Proof.
  apply (dropped_slot_raises Sample.get_state Further.forgetful Sample.three_symbols 1
           Sample.aapl 4%nat "macro_report" "Macro Analyst" "Rates steady.").
  - exact sample_page_aapl.
  - reflexivity.
  - vm_compute. discriminate.
  - vm_compute. discriminate.
  - vm_compute. discriminate.
  - reflexivity.
  - discriminate.
  - reflexivity.
Defined.

Lemma validator_not_consulted_witness :
  tabs_of_state Sample.validate Sample.msft = tabs_of_state Further.forgetful Sample.msft.
Proof.
  apply validator_not_consulted.
  intros i report_type analyst Hslot. left.
  destruct i as [|[|[|[|[|i]]]]]; simpl in Hslot;
    try discriminate Hslot; injection Hslot as <- <-; reflexivity.
Defined.

Lemma panels_never_blank_witness :
  Forall (λ c, ∃ text, c = Markdown text ∧ Py.is_blank text = false)
    [Markdown "Uptrend.";
     Markdown "⏳ Sentiment Report - Waiting to start...";
     Markdown "🔄 News Report - Analysis in progress...";
     Markdown "No Fundamentals Report available yet.";
     Markdown "Rates steady.";
     Markdown "No research manager decision available yet.";
     Markdown "No trader report available yet.";
     Markdown "BUY"].
Proof.
  apply (panels_never_blank Sample.get_state Sample.validate Sample.three_symbols (Some 1)).
  reflexivity.
Defined.

Lemma research_team_slots_witness :
  ∃ outs,
    update_tabs_content Sample.get_state Sample.validate Sample.three_symbols (Some 1)
    = Ok outs ∧
    outs !! 5%nat = Some (Markdown "No research manager decision available yet.") ∧
    outs !! 7%nat = Some (Markdown "BUY").
Proof.
  eexists. split; [reflexivity|].
  destruct (research_team_slots Sample.get_state Sample.validate Sample.three_symbols 1
              Sample.aapl _ sample_page_aapl eq_refl) as (_ & Hslots).
  split.
  - destruct (Hslots 5%nat "research_manager_report"
                "No research manager decision available yet.") as [Habsent _].
    + apply list_elem_of_here.
    + apply Habsent. reflexivity.
  - destruct (Hslots 7%nat "final_trade_decision" "No final decision available yet.")
      as [_ Hpresent].
    + do 2 apply list_elem_of_further. apply list_elem_of_here.
    + apply (Hpresent "BUY"); [reflexivity|discriminate].
Defined.
